(** * libevtx: event values (libevtx_event_values.c)

    A shallow embedding of the three functions of
    [libevtx/libevtx_event_values.c]:

    - [libevtx_event_values_initialize]
    - [libevtx_event_values_free]
    - [libevtx_event_values_read]

    C integers are modelled as [Z] with their wrap-around written out,
    the chunk buffer as a [list byte], nullable pointers as [option], the
    error object set through [liberror_error_set] as a value returned
    next to the return code, and the [while] loop of the reader as a
    function with fuel. *)

From Stdlib Require Import ZArith List Lia Bool String.
From Stdlib Require Import Strings.Byte.
Import ListNotations.

Local Open Scope Z_scope.

(** ** Machine integers *)

Module Machine.

(** [size_t] is taken to be 64 bits wide (LP64), so [SSIZE_MAX] is
    [2^63 - 1]. *)
Definition size_t_modulus : Z := 2 ^ 64.
Definition SSIZE_MAX : Z := 2 ^ 63 - 1.
Definition uint32_modulus : Z := 2 ^ 32.
Definition uint64_modulus : Z := 2 ^ 64.

Definition to_size_t (z : Z) : Z := z mod size_t_modulus.
Definition to_uint32 (z : Z) : Z := z mod uint32_modulus.
Definition to_uint64 (z : Z) : Z := z mod uint64_modulus.

End Machine.

Import Machine.

(** ** liberror *)

Inductive liberror_domain : Type :=
  | LIBERROR_ERROR_DOMAIN_ARGUMENTS
  | LIBERROR_ERROR_DOMAIN_IO
  | LIBERROR_ERROR_DOMAIN_MEMORY
  | LIBERROR_ERROR_DOMAIN_RUNTIME.

Inductive liberror_code : Type :=
  | LIBERROR_ARGUMENT_ERROR_INVALID_VALUE
  | LIBERROR_ARGUMENT_ERROR_VALUE_EXCEEDS_MAXIMUM
  | LIBERROR_ARGUMENT_ERROR_VALUE_OUT_OF_BOUNDS
  | LIBERROR_IO_ERROR_READ_FAILED
  | LIBERROR_MEMORY_ERROR_INSUFFICIENT
  | LIBERROR_MEMORY_ERROR_SET_FAILED
  | LIBERROR_RUNTIME_ERROR_VALUE_ALREADY_SET
  | LIBERROR_RUNTIME_ERROR_VALUE_OUT_OF_BOUNDS
  | LIBERROR_RUNTIME_ERROR_UNSUPPORTED_VALUE
  | LIBERROR_RUNTIME_ERROR_INITIALIZE_FAILED
  | LIBERROR_RUNTIME_ERROR_FINALIZE_FAILED.

(** What [liberror_error_set] records: domain, code and the message
    (without the function-name prefix). *)
Record liberror_error_t : Type := mk_error {
  error_domain : liberror_domain;
  error_code : liberror_code;
  error_message : string
}.

(** The result of a call: the return code 1, or -1 with the error set. *)
Inductive result : Type :=
  | Success
  | Failure (e : liberror_error_t).

Definition return_code (r : result) : Z :=
  match r with
  | Success => 1
  | Failure _ => -1
  end.

(** The error kinds of the design, and the kind each error of this file
    falls under.  The two run-time VALUE_OUT_OF_BOUNDS errors of the reader
    share domain and code and differ by their message only.  The design
    names no kind for a failure to allocate, clear, create or free:
    [ResourceFailure] stands for those. *)
Inductive error_kind : Type :=
  | InvalidArgument
  | OutOfBounds
  | TooSmall
  | UnsupportedSignature
  | TokenDecodeFailed
  | NoProgress
  | TokenOverrun
  | ResourceFailure.

Definition E_invalid_event_values : liberror_error_t :=
  mk_error LIBERROR_ERROR_DOMAIN_ARGUMENTS
           LIBERROR_ARGUMENT_ERROR_INVALID_VALUE
           "invalid event values.".

Definition E_value_already_set : liberror_error_t :=
  mk_error LIBERROR_ERROR_DOMAIN_RUNTIME
           LIBERROR_RUNTIME_ERROR_VALUE_ALREADY_SET
           "invalid event values value already set.".

Definition E_unable_to_create : liberror_error_t :=
  mk_error LIBERROR_ERROR_DOMAIN_MEMORY
           LIBERROR_MEMORY_ERROR_INSUFFICIENT
           "unable to create event values.".

Definition E_unable_to_clear : liberror_error_t :=
  mk_error LIBERROR_ERROR_DOMAIN_MEMORY
           LIBERROR_MEMORY_ERROR_SET_FAILED
           "unable to clear event values.".

Definition E_invalid_io_handle : liberror_error_t :=
  mk_error LIBERROR_ERROR_DOMAIN_ARGUMENTS
           LIBERROR_ARGUMENT_ERROR_INVALID_VALUE
           "invalid IO handle.".

Definition E_invalid_chunk_data : liberror_error_t :=
  mk_error LIBERROR_ERROR_DOMAIN_ARGUMENTS
           LIBERROR_ARGUMENT_ERROR_INVALID_VALUE
           "invalid chunk data.".

Definition E_size_exceeds_maximum : liberror_error_t :=
  mk_error LIBERROR_ERROR_DOMAIN_ARGUMENTS
           LIBERROR_ARGUMENT_ERROR_VALUE_EXCEEDS_MAXIMUM
           "invalid event record data size value exceeds maximum.".

Definition E_offset_out_of_bounds : liberror_error_t :=
  mk_error LIBERROR_ERROR_DOMAIN_ARGUMENTS
           LIBERROR_ARGUMENT_ERROR_VALUE_OUT_OF_BOUNDS
           "invalid chunk data offset value out of bounds.".

Definition E_size_too_small : liberror_error_t :=
  mk_error LIBERROR_ERROR_DOMAIN_RUNTIME
           LIBERROR_RUNTIME_ERROR_VALUE_OUT_OF_BOUNDS
           "invalid event record data size value too small.".

Definition E_unsupported_signature : liberror_error_t :=
  mk_error LIBERROR_ERROR_DOMAIN_RUNTIME
           LIBERROR_RUNTIME_ERROR_UNSUPPORTED_VALUE
           "unsupported event record signature.".

Definition E_size_out_of_bounds : liberror_error_t :=
  mk_error LIBERROR_ERROR_DOMAIN_RUNTIME
           LIBERROR_RUNTIME_ERROR_VALUE_OUT_OF_BOUNDS
           "invalid event record data size value out of bounds.".

Definition E_token_create : liberror_error_t :=
  mk_error LIBERROR_ERROR_DOMAIN_RUNTIME
           LIBERROR_RUNTIME_ERROR_INITIALIZE_FAILED
           "unable to create binary XML token.".

Definition E_token_read : liberror_error_t :=
  mk_error LIBERROR_ERROR_DOMAIN_IO
           LIBERROR_IO_ERROR_READ_FAILED
           "unable to read binary XML token.".

Definition E_token_free : liberror_error_t :=
  mk_error LIBERROR_ERROR_DOMAIN_RUNTIME
           LIBERROR_RUNTIME_ERROR_FINALIZE_FAILED
           "unable to free binary XML token.".

Definition kind_of (e : liberror_error_t) : error_kind :=
  match error_domain e, error_code e with
  | LIBERROR_ERROR_DOMAIN_ARGUMENTS, LIBERROR_ARGUMENT_ERROR_VALUE_OUT_OF_BOUNDS =>
      OutOfBounds
  | LIBERROR_ERROR_DOMAIN_ARGUMENTS, _ => InvalidArgument
  | LIBERROR_ERROR_DOMAIN_RUNTIME, LIBERROR_RUNTIME_ERROR_VALUE_OUT_OF_BOUNDS =>
      if String.eqb (error_message e) (error_message E_size_too_small)
      then TooSmall else OutOfBounds
  | LIBERROR_ERROR_DOMAIN_RUNTIME, LIBERROR_RUNTIME_ERROR_UNSUPPORTED_VALUE =>
      UnsupportedSignature
  | LIBERROR_ERROR_DOMAIN_IO, _ => TokenDecodeFailed
  | _, _ => ResourceFailure
  end.

(** ** Event values *)

(** Modelled from the spec: the structure [libevtx_event_values_t] is
    declared in libevtx_event_values.h, which is not part of the sources;
    the reader stores the 32-bit size and the 64-bit identifier and
    creation time of the record header in it. *)
Record libevtx_event_values_t : Type := mk_event_values {
  size : Z;
  identifier : Z;
  creation_time : Z
}.

(** The structure after [memory_set( .., 0, sizeof( .. ) )]. *)
Definition zeroed_event_values : libevtx_event_values_t :=
  mk_event_values 0 0 0.

(** A [libevtx_event_values_t **]: [None] is the NULL handle, [Some None]
    a handle whose target pointer is NULL, [Some (Some v)] a handle whose
    target points to an allocated structure holding [v]. *)
Definition event_values_handle : Type := option (option libevtx_event_values_t).

(** The two ways the allocation of [libevtx_event_values_initialize] can
    go wrong are inputs of the model: [memory_allocate_structure] returns
    NULL when [alloc_ok] is false, [memory_set] when [set_ok] is false. *)
Definition libevtx_event_values_initialize
    (alloc_ok set_ok : bool) (event_values : event_values_handle)
    : result * event_values_handle :=
  match event_values with
  | None => (Failure E_invalid_event_values, None)
  | Some (Some v) => (Failure E_value_already_set, Some (Some v))
  | Some None =>
      if negb alloc_ok then
        (* on_error: the target is NULL, nothing to release *)
        (Failure E_unable_to_create, Some None)
      else if negb set_ok then
        (* on_error: memory_free( *event_values ); *event_values = NULL *)
        (Failure E_unable_to_clear, Some None)
      else (Success, Some (Some zeroed_event_values))
  end.

(** [libevtx_event_values_free]: the handle after the call, and the number
    of calls to [memory_free] made. *)
Definition libevtx_event_values_free (event_values : event_values_handle)
    : result * event_values_handle * nat :=
  match event_values with
  | None => (Failure E_invalid_event_values, None, 0%nat)
  | Some target =>
      match target with
      | Some _ => (Success, Some None, 1%nat)
      | None => (Success, Some None, 0%nat)
      end
  end.

(** ** Bytes and byte streams *)

Definition uint8 (b : byte) : Z := Z.of_N (Byte.to_N b).

(** [chunk_data[ i ]].  The C read is only defined inside the buffer; the
    model yields 0 outside of it and every read is recorded (see
    [load]), so that reads outside the buffer can be told. *)
Definition byte_at (chunk_data : list byte) (i : Z) : byte :=
  if (i <? 0) || (Z.of_nat (List.length chunk_data) <=? i) then x00
  else nth (Z.to_nat i) chunk_data x00.

(** The [n] bytes of [chunk_data] from offset [off] on. *)
Definition bytes_at (chunk_data : list byte) (off : Z) (n : nat) : list byte :=
  map (fun k => byte_at chunk_data (off + Z.of_nat k)) (seq 0 n).

(** Modelled from the spec: the macros of byte_stream.h are not part of
    the sources; a little-endian copy takes the last byte first and shifts
    the value left by 8 bits before each further byte is or-ed in. *)
Definition byte_stream_copy_to_uint32_little_endian (byte_stream : list byte) : Z :=
  let value := uint8 (nth 3 byte_stream x00) in
  let value := to_uint32 (Z.shiftl value 8) in
  let value := Z.lor value (uint8 (nth 2 byte_stream x00)) in
  let value := to_uint32 (Z.shiftl value 8) in
  let value := Z.lor value (uint8 (nth 1 byte_stream x00)) in
  let value := to_uint32 (Z.shiftl value 8) in
  Z.lor value (uint8 (nth 0 byte_stream x00)).

Definition byte_stream_copy_to_uint64_little_endian (byte_stream : list byte) : Z :=
  let value := uint8 (nth 7 byte_stream x00) in
  let value := to_uint64 (Z.shiftl value 8) in
  let value := Z.lor value (uint8 (nth 6 byte_stream x00)) in
  let value := to_uint64 (Z.shiftl value 8) in
  let value := Z.lor value (uint8 (nth 5 byte_stream x00)) in
  let value := to_uint64 (Z.shiftl value 8) in
  let value := Z.lor value (uint8 (nth 4 byte_stream x00)) in
  let value := to_uint64 (Z.shiftl value 8) in
  let value := Z.lor value (uint8 (nth 3 byte_stream x00)) in
  let value := to_uint64 (Z.shiftl value 8) in
  let value := Z.lor value (uint8 (nth 2 byte_stream x00)) in
  let value := to_uint64 (Z.shiftl value 8) in
  let value := Z.lor value (uint8 (nth 1 byte_stream x00)) in
  let value := to_uint64 (Z.shiftl value 8) in
  Z.lor value (uint8 (nth 0 byte_stream x00)).

(** The little-endian value of a byte sequence as the layout table of the
    design has it: byte [k] weighs [256^k].  This one follows the words of
    the specification and is compared with the two macros below. *)
Fixpoint little_endian_value (bytes : list byte) : Z :=
  match bytes with
  | [] => 0
  | b :: rest => uint8 b + 256 * little_endian_value rest
  end.

(** [memory_compare] is [memcmp]: 0 when the first [n] bytes agree, else
    the difference of the first two bytes that differ. *)
Fixpoint memory_compare (a b : list byte) (n : nat) : Z :=
  match n with
  | O => 0
  | S n' =>
      let x := uint8 (hd x00 a) in
      let y := uint8 (hd x00 b) in
      if x =? y then memory_compare (tl a) (tl b) n' else x - y
  end.

(** ** The event record header *)

(** Modelled from the spec: [evtx_event_record_header_t] is declared in
    evtx_event_record.h, which is not part of the sources.  It is a
    structure of byte arrays: signature (4 bytes, offset 0), size (4 bytes,
    offset 4), identifier (8 bytes, offset 8) and creation_time (8 bytes,
    offset 16), 24 bytes in all. *)
Definition sizeof_evtx_event_record_header_t : Z := 24.
Definition offsetof_signature : Z := 0.
Definition offsetof_size : Z := 4.
Definition offsetof_identifier : Z := 8.
Definition offsetof_creation_time : Z := 16.

Definition evtx_event_record_signature : list byte := [x2a; x2a; x00; x00].

(** ** The state of a call of the reader *)

(** A read of [acc_length] bytes of [chunk_data] at [acc_offset]. *)
Record access : Type := mk_access {
  acc_offset : Z;
  acc_length : Z
}.

(** A token read at [tok_offset] that reported [consumed_bytes]. *)
Record decoded_token : Type := mk_decoded {
  tok_offset : Z;
  consumed_bytes : Z
}.

(** What a call can touch: the chunk buffer, the structure behind
    [event_values], and two histories kept for the statements only: the
    reads of the buffer the function itself makes, latest first, and the
    tokens read by the loop, in order. *)
Record state : Type := mk_state {
  st_chunk_data : list byte;
  st_event_values : libevtx_event_values_t;
  st_reads : list access;
  st_tokens : list decoded_token
}.

(** A read at a given offset lies inside a buffer of [chunk_data_size]
    bytes. *)
Definition in_buffer (chunk_data_size : Z) (a : access) : bool :=
  (0 <=? acc_offset a) && (acc_offset a + acc_length a <=? chunk_data_size).

(** Computations of the reader: they thread the state, may stop with an
    error ([goto on_error]), and, because of the loop, may fail to come
    back within the fuel given ([None]). *)
Definition M (A : Type) : Type :=
  state -> option ((liberror_error_t + A) * state).

Definition ret {A : Type} (a : A) : M A :=
  fun s => Some (inr a, s).

Definition bind {A B : Type} (m : M A) (k : A -> M B) : M B :=
  fun s =>
    match m s with
    | None => None
    | Some (inl e, s') => Some (inl e, s')
    | Some (inr a, s') => k a s'
    end.

Definition on_error {A : Type} (e : liberror_error_t) : M A :=
  fun s => Some (inl e, s).

Definition out_of_fuel {A : Type} : M A :=
  fun _ => None.

Notation "x <- m ;; k" := (bind m (fun x => k))
  (at level 61, m at next level, right associativity).
Notation "m ;;; k" := (bind m (fun _ => k))
  (at level 61, right associativity).

(** Reads [n] bytes at [chunk_data[ off ]] and records the read.  A read
    outside the buffer is undefined in C; here it is recorded, yields
    zeros, and the computation goes on: what is stated of a call that has
    made such a read is stated of the model only. *)
Definition load (off : Z) (n : nat) : M (list byte) :=
  fun s =>
    Some (inr (bytes_at (st_chunk_data s) off n),
          mk_state (st_chunk_data s) (st_event_values s)
                   (mk_access off (Z.of_nat n) :: st_reads s) (st_tokens s)).

Definition get_event_values : M libevtx_event_values_t :=
  fun s => Some (inr (st_event_values s), s).

Definition set_event_values (v : libevtx_event_values_t) : M unit :=
  fun s => Some (inr tt, mk_state (st_chunk_data s) v (st_reads s) (st_tokens s)).

Definition set_size (v : Z) : M unit :=
  ev <- get_event_values ;;
  set_event_values (mk_event_values v (identifier ev) (creation_time ev)).

Definition set_identifier (v : Z) : M unit :=
  ev <- get_event_values ;;
  set_event_values (mk_event_values (size ev) v (creation_time ev)).

Definition set_creation_time (v : Z) : M unit :=
  ev <- get_event_values ;;
  set_event_values (mk_event_values (size ev) (identifier ev) v).

Definition record_token (t : decoded_token) : M unit :=
  fun s => Some (inr tt, mk_state (st_chunk_data s) (st_event_values s)
                                  (st_reads s) (st_tokens s ++ [t])).

(** ** Binary XML tokens *)

(** Modelled from the spec: [libevtx_binary_xml_token_t] and its three
    functions live in libevtx_binary_xml_token.[ch], which are not part of
    the sources.  A token exposes the number of bytes it occupies
    ([binary_xml_token->size]); reading one is a function of the IO handle,
    the chunk buffer, its size and the offset; creating and freeing one can
    fail, which the model takes as an input per loop iteration. *)
Record libevtx_binary_xml_token_t : Type := mk_token {
  token_size : Z
}.

Record binary_xml_token_functions (io_handle_t : Type) : Type := mk_token_functions {
  libevtx_binary_xml_token_initialize : nat -> bool;
  libevtx_binary_xml_token_read :
    io_handle_t -> list byte -> Z -> Z -> option libevtx_binary_xml_token_t;
  libevtx_binary_xml_token_free : nat -> bool
}.

Arguments libevtx_binary_xml_token_initialize {io_handle_t} _ _.
Arguments libevtx_binary_xml_token_read {io_handle_t} _ _ _ _ _.
Arguments libevtx_binary_xml_token_free {io_handle_t} _ _.

(** ** libevtx_event_values_read *)

(** What the caller can observe after a call that came back. *)
Record outcome : Type := mk_outcome {
  out_result : result;
  out_event_values : option libevtx_event_values_t;
  out_chunk_data : option (list byte);
  out_reads : list access;
  out_tokens : list decoded_token
}.

Section Reader.

Variable io_handle_t : Type.
Variable token_functions : binary_xml_token_functions io_handle_t.

(** The values of the locals [chunk_data_offset] and
    [event_record_data_size] after lines 323-326. *)
Definition payload_offset (chunk_data_offset : Z) : Z :=
  to_size_t (chunk_data_offset + sizeof_evtx_event_record_header_t).

Definition payload_length (event_values_size : Z) : Z :=
  to_size_t (event_values_size - (sizeof_evtx_event_record_header_t + 4)).

(** Lines 197-326: the checks on the sizes, the signature, the header
    fields, the copy of the size and the bounds of the size.  Comes back
    with the two locals above.  Pointers into the chunk are offsets from
    [chunk_data].  [event_values->size - 4] is a 32-bit difference;
    [event_record_data_size - 4] cannot wrap, the size being at least 28
    where it is computed.  [copy_of_size] is read and not used.  The
    blocks under HAVE_DEBUG_OUTPUT (lines 233-244, 275-309, 328-339) are
    left out: this is the function as built without tracing, and the
    reads [libnotify_print_data] makes with tracing on are not among the
    reads recorded. *)
Definition read_record_header (chunk_data_size chunk_data_offset : Z)
    : M (Z * Z) :=
  if SSIZE_MAX <? chunk_data_size then on_error E_size_exceeds_maximum
  else if chunk_data_size <=? chunk_data_offset then
    on_error E_offset_out_of_bounds
  else
    let event_record_data := chunk_data_offset in
    let event_record_data_size :=
      to_size_t (chunk_data_size - chunk_data_offset) in
    if event_record_data_size <? sizeof_evtx_event_record_header_t + 4 then
      on_error E_size_too_small
    else
      signature <- load (event_record_data + offsetof_signature) 4 ;;
      if negb (memory_compare signature evtx_event_record_signature 4 =? 0)
      then on_error E_unsupported_signature
      else
        bytes <- load (event_record_data + offsetof_size) 4 ;;
        set_size (byte_stream_copy_to_uint32_little_endian bytes) ;;;
        bytes <- load (event_record_data + offsetof_identifier) 8 ;;
        set_identifier (byte_stream_copy_to_uint64_little_endian bytes) ;;;
        bytes <- load (event_record_data + offsetof_creation_time) 8 ;;
        set_creation_time (byte_stream_copy_to_uint64_little_endian bytes) ;;;
        event_values <- get_event_values ;;
        bytes <- load (event_record_data
                       + to_uint32 (size event_values - 4)) 4 ;;
        let copy_of_size := byte_stream_copy_to_uint32_little_endian bytes in
        if (size event_values <? sizeof_evtx_event_record_header_t)
           || (event_record_data_size - 4 <? size event_values)
        then on_error E_size_out_of_bounds
        else
          ret (payload_offset chunk_data_offset,
               payload_length (size event_values)).

(** Lines 343-390: the loop over the tokens.  [iteration] counts the
    iterations made so far; the value that comes back is the local
    [chunk_data_offset] when the loop is left. *)
Fixpoint read_tokens (fuel : nat) (io_handle : io_handle_t)
    (chunk_data_size : Z) (iteration : nat) (chunk_data_offset : Z)
    : M Z :=
  if chunk_data_offset <? chunk_data_size then
    match fuel with
    | O => out_of_fuel
    | S fuel' =>
        if negb (libevtx_binary_xml_token_initialize token_functions iteration)
        then on_error E_token_create
        else
          fun s =>
            match libevtx_binary_xml_token_read token_functions io_handle
                    (st_chunk_data s) chunk_data_size chunk_data_offset with
            | None => on_error E_token_read s
            | Some binary_xml_token =>
                let token_bytes := to_size_t (token_size binary_xml_token) in
                (record_token (mk_decoded chunk_data_offset token_bytes) ;;;
                 if negb (libevtx_binary_xml_token_free token_functions iteration)
                 then on_error E_token_free
                 else
                   read_tokens fuel' io_handle chunk_data_size (S iteration)
                     (to_size_t (chunk_data_offset + token_bytes))) s
            end
    end
  else ret chunk_data_offset.

Definition read_record (fuel : nat) (io_handle : io_handle_t)
    (chunk_data_size chunk_data_offset : Z) : M Z :=
  payload <- read_record_header chunk_data_size chunk_data_offset ;;
  read_tokens fuel io_handle chunk_data_size 0%nat (fst payload).

(** The function: [None] when the loop has not come back within
    [fuel] iterations.  NULL arguments are [None]. *)
Definition libevtx_event_values_read (fuel : nat)
    (event_values : option libevtx_event_values_t)
    (io_handle : option io_handle_t)
    (chunk_data : option (list byte))
    (chunk_data_size chunk_data_offset : Z) : option outcome :=
  match event_values with
  | None =>
      Some (mk_outcome (Failure E_invalid_event_values) None chunk_data [] [])
  | Some ev =>
      match io_handle with
      | None =>
          Some (mk_outcome (Failure E_invalid_io_handle) (Some ev) chunk_data [] [])
      | Some io =>
          match chunk_data with
          | None =>
              Some (mk_outcome (Failure E_invalid_chunk_data) (Some ev) None [] [])
          | Some chunk =>
              match read_record fuel io chunk_data_size chunk_data_offset
                      (mk_state chunk ev [] []) with
              | None => None
              | Some (r, s) =>
                  Some (mk_outcome
                          match r with
                          | inl e => Failure e
                          | inr _ => Success
                          end
                          (Some (st_event_values s))
                          (Some (st_chunk_data s))
                          (st_reads s) (st_tokens s))
              end
          end
      end
  end.

End Reader.

Arguments read_tokens {io_handle_t} _ _ _ _ _ _ _.
Arguments read_record {io_handle_t} _ _ _ _ _ _.
Arguments libevtx_event_values_read {io_handle_t} _ _ _ _ _ _ _.

(** ** Notions used in the statements *)

(** The header fields of the record at [chunk_data_offset], decoded the
    way the reader decodes them. *)
Definition header_fields (chunk_data : list byte) (chunk_data_offset : Z)
    : libevtx_event_values_t :=
  mk_event_values
    (byte_stream_copy_to_uint32_little_endian
       (bytes_at chunk_data (chunk_data_offset + offsetof_size) 4))
    (byte_stream_copy_to_uint64_little_endian
       (bytes_at chunk_data (chunk_data_offset + offsetof_identifier) 8))
    (byte_stream_copy_to_uint64_little_endian
       (bytes_at chunk_data (chunk_data_offset + offsetof_creation_time) 8)).

(** The reads of the buffer made once the signature has been accepted,
    latest first: the copy of the size, the three fields, the signature. *)
Definition header_reads (chunk_data_offset event_values_size : Z) : list access :=
  [mk_access (chunk_data_offset + to_uint32 (event_values_size - 4)) 4;
   mk_access (chunk_data_offset + offsetof_creation_time) 8;
   mk_access (chunk_data_offset + offsetof_identifier) 8;
   mk_access (chunk_data_offset + offsetof_size) 4;
   mk_access (chunk_data_offset + offsetof_signature) 4].

(** The sum of the sizes of the tokens read. *)
Definition total_consumed (tokens : list decoded_token) : Z :=
  fold_right (fun t acc => consumed_bytes t + acc) 0 tokens.

(** The errors of the reader raised before any field of [event_values] is
    written, and those raised after. *)
Definition early_errors : list liberror_error_t :=
  [E_invalid_event_values; E_invalid_io_handle; E_invalid_chunk_data;
   E_size_exceeds_maximum; E_offset_out_of_bounds; E_size_too_small;
   E_unsupported_signature].

Definition late_errors : list liberror_error_t :=
  [E_size_out_of_bounds; E_token_create; E_token_read; E_token_free].

(** ** Sample chunks and token readers *)

Module Samples.

(** A record header with signature, the given 4 bytes of size,
    identifier 1 and a creation time. *)
Definition header_with_size (size_bytes : list byte) : list byte :=
  [x2a; x2a; x00; x00] ++ size_bytes
  ++ [x01; x00; x00; x00; x00; x00; x00; x00]
  ++ [x80; x3e; xd5; xde; xb1; x9d; x01; x00].

Definition size_copy_1c : list byte := [x1c; x00; x00; x00].

(** 32 bytes: a record of size 0x1C (header, no payload, copy of the
    size at offset 24) and 4 more bytes. *)
Definition chunk_empty_payload : list byte :=
  header_with_size [x1c; x00; x00; x00] ++ size_copy_1c ++ size_copy_1c.

(** 36 bytes: a record of size 0x20 (header, 4 bytes of payload, copy of
    the size at offset 28) and 4 more bytes. *)
Definition chunk_payload_4 : list byte :=
  header_with_size [x20; x00; x00; x00]
  ++ [x0f; x01; x01; x00] ++ [x20; x00; x00; x00] ++ [x00; x00; x00; x00].

(** 32 bytes: a header that declares the size 0. *)
Definition chunk_size_0 : list byte :=
  header_with_size [x00; x00; x00; x00] ++ repeat x00 8.

(** 30 bytes: a header that declares the size 40. *)
Definition chunk_size_40 : list byte :=
  header_with_size [x28; x00; x00; x00] ++ repeat x00 6.

(** 32 bytes: a header that declares the size 24, the size of the header
    alone. *)
Definition chunk_size_24 : list byte :=
  header_with_size [x18; x00; x00; x00] ++ repeat x00 8.

(** 32 bytes of zeros, as in the unused tail of a chunk. *)
Definition chunk_zeros : list byte := repeat x00 32.

(** A token reader for which every token has [n] bytes, and one that
    fails on every token; creating and freeing a token succeed. *)
Definition tokens_of_size (n : Z) : binary_xml_token_functions unit :=
  mk_token_functions unit (fun _ => true)
    (fun _ _ _ _ => Some (mk_token n)) (fun _ => true).

Definition no_token : binary_xml_token_functions unit :=
  mk_token_functions unit (fun _ => true) (fun _ _ _ _ => None) (fun _ => true).

Definition sample_fields (event_values_size : Z) : libevtx_event_values_t :=
  mk_event_values event_values_size 1 454862250000000.

End Samples.

(** ** Notions used in the further statements *)

(** The offset the loop has reached after the given tokens, from
    [chunk_data_offset]: line 375, once per token. *)
Definition offset_after (chunk_data_offset : Z) (tokens : list decoded_token) : Z :=
  fold_left (fun off t => to_size_t (off + consumed_bytes t)) tokens
    chunk_data_offset.

(** The tokens were read one after the other: the first at
    [chunk_data_offset], each next one where the one before it ended. *)
Fixpoint tokens_chained (chunk_data_offset : Z) (tokens : list decoded_token)
    : bool :=
  match tokens with
  | [] => true
  | t :: rest =>
      (tok_offset t =? chunk_data_offset)
      && tokens_chained (to_size_t (chunk_data_offset + consumed_bytes t)) rest
  end.

(** Every token was read at an offset inside the chunk. *)
Definition tokens_inside (chunk_data_size : Z) (tokens : list decoded_token)
    : bool :=
  forallb (fun t => (0 <=? tok_offset t) && (tok_offset t <? chunk_data_size))
    tokens.

Definition reads_inside (chunk_data_size : Z) (reads : list access) : bool :=
  forallb (in_buffer chunk_data_size) reads.

(** [libevtx_event_values_initialize] once more, with the memory it
    takes and gives back: next to the result and the handle, the number of
    structures [memory_allocate_structure] has handed out (line 70) and the
    number of calls of [memory_free] (lines 101-107, reached through
    [on_error] only). *)
Record initialize_outcome : Type := mk_initialize_outcome {
  init_result : result;
  init_handle : event_values_handle;
  init_allocated : nat;
  init_released : nat
}.

Definition libevtx_event_values_initialize_memory
    (alloc_ok set_ok : bool) (event_values : event_values_handle)
    : initialize_outcome :=
  match event_values with
  | None => mk_initialize_outcome (Failure E_invalid_event_values) None 0 0
  | Some (Some v) =>
      mk_initialize_outcome (Failure E_value_already_set) (Some (Some v)) 0 0
  | Some None =>
      if negb alloc_ok then
        (* on_error: *event_values is NULL, memory_free is not called *)
        mk_initialize_outcome (Failure E_unable_to_create) (Some None) 0 0
      else if negb set_ok then
        (* on_error: memory_free( *event_values ); *event_values = NULL *)
        mk_initialize_outcome (Failure E_unable_to_clear) (Some None) 1 1
      else
        mk_initialize_outcome Success (Some (Some zeroed_event_values)) 1 0
  end.

(** The read of the copy of the size (lines 271-273) lies inside the
    chunk. *)
Definition size_copy_inside (chunk_data_size chunk_data_offset : Z)
    (chunk : list byte) : bool :=
  in_buffer chunk_data_size
    (mk_access
       (chunk_data_offset
        + to_uint32 (size (header_fields chunk chunk_data_offset) - 4)) 4).

(** 32 bytes: a header that declares the size 30, 2 more than the chunk
    can hold with the 4 bytes the reader wants after a record; the copy of
    the size of such a record would lie at offset 26, inside the chunk. *)
Definition chunk_size_30 : list byte :=
  Samples.header_with_size [x1e; x00; x00; x00] ++ repeat x00 8.

(** * Properties *)

(** ** Machine integers *)

Lemma to_size_t_range z : 0 <= to_size_t z < size_t_modulus.
Proof. apply Z.mod_pos_bound; reflexivity. Qed.

Lemma to_size_t_small z : 0 <= z < size_t_modulus -> to_size_t z = z.
Proof. intros H; apply Z.mod_small; exact H. Qed.

Lemma to_size_t_le z : 0 <= z -> to_size_t z <= z.
Proof. intros H; apply Z.mod_le; [exact H | reflexivity]. Qed.

Lemma to_uint32_range z : 0 <= to_uint32 z < uint32_modulus.
Proof. apply Z.mod_pos_bound; reflexivity. Qed.

Lemma uint8_range b : 0 <= uint8 b < 256.
Proof.
  unfold uint8. pose proof (Byte.to_N_bounded b) as H.
  split; [apply N2Z.is_nonneg | lia].
Qed.

Lemma uint8_inj a b : uint8 a = uint8 b -> a = b.
Proof.
  unfold uint8; intros H. apply N2Z.inj in H.
  assert (E : Byte.of_N (Byte.to_N a) = Byte.of_N (Byte.to_N b)) by (rewrite H; reflexivity).
  rewrite !Byte.of_to_N in E. congruence.
Qed.

(** ** Little-endian copies *)

Lemma shift_or_byte v b :
  0 <= v -> 0 <= b < 256 -> Z.lor (Z.shiftl v 8) b = 256 * v + b.
Proof.
  intros Hv Hb.
  assert (Hland : Z.land (Z.shiftl v 8) b = 0).
  { apply Z.bits_inj'; intros n Hn.
    rewrite Z.land_spec, Z.bits_0.
    destruct (Z.lt_ge_cases n 8) as [Hlt | Hge].
    - rewrite Z.shiftl_spec_low by exact Hlt. reflexivity.
    - replace (Z.testbit b n) with false; [apply andb_false_r|].
      symmetry. rewrite <- (Z.mod_small b (2 ^ 8)) by (change (2 ^ 8) with 256; lia).
      apply Z.mod_pow2_bits_high; lia. }
  rewrite <- Z.lxor_lor by exact Hland.
  rewrite <- Z.add_nocarry_lxor by exact Hland.
  rewrite Z.shiftl_mul_pow2 by lia. change (2 ^ 8) with 256. lia.
Qed.

Lemma uint32_step v b :
  0 <= v < 2 ^ 24 -> 0 <= b < 256 ->
  Z.lor (to_uint32 (Z.shiftl v 8)) b = 256 * v + b.
Proof.
  intros Hv Hb. unfold to_uint32, uint32_modulus.
  rewrite Z.mod_small.
  - apply shift_or_byte; lia.
  - rewrite Z.shiftl_mul_pow2 by lia.
    change (2 ^ 8) with 256. change (2 ^ 32) with (256 * 2 ^ 24). lia.
Qed.

Lemma uint64_step v b :
  0 <= v < 2 ^ 56 -> 0 <= b < 256 ->
  Z.lor (to_uint64 (Z.shiftl v 8)) b = 256 * v + b.
Proof.
  intros Hv Hb. unfold to_uint64, uint64_modulus.
  rewrite Z.mod_small.
  - apply shift_or_byte; lia.
  - rewrite Z.shiftl_mul_pow2 by lia.
    change (2 ^ 8) with 256. change (2 ^ 64) with (256 * 2 ^ 56). lia.
Qed.

(** The 32-bit macro computes the little-endian value of its 4 bytes. *)
Lemma copy_to_uint32_little_endian_value b0 b1 b2 b3 :
  byte_stream_copy_to_uint32_little_endian [b0; b1; b2; b3]
  = little_endian_value [b0; b1; b2; b3].
Proof.
  unfold byte_stream_copy_to_uint32_little_endian; cbn [nth little_endian_value].
  pose proof (uint8_range b0); pose proof (uint8_range b1).
  pose proof (uint8_range b2); pose proof (uint8_range b3).
  repeat match goal with
         | |- context [Z.lor (to_uint32 (Z.shiftl ?v 8)) ?b] =>
             rewrite (uint32_step v b) by (change (2 ^ 24) with 16777216; lia)
         end.
  lia.
Qed.

(** The 64-bit macro computes the little-endian value of its 8 bytes. *)
Lemma copy_to_uint64_little_endian_value b0 b1 b2 b3 b4 b5 b6 b7 :
  byte_stream_copy_to_uint64_little_endian [b0; b1; b2; b3; b4; b5; b6; b7]
  = little_endian_value [b0; b1; b2; b3; b4; b5; b6; b7].
Proof.
  unfold byte_stream_copy_to_uint64_little_endian; cbn [nth little_endian_value].
  pose proof (uint8_range b0); pose proof (uint8_range b1).
  pose proof (uint8_range b2); pose proof (uint8_range b3).
  pose proof (uint8_range b4); pose proof (uint8_range b5).
  pose proof (uint8_range b6); pose proof (uint8_range b7).
  repeat match goal with
         | |- context [Z.lor (to_uint64 (Z.shiftl ?v 8)) ?b] =>
             rewrite (uint64_step v b)
               by (change (2 ^ 56) with 72057594037927936; lia)
         end.
  lia.
Qed.

Lemma length_bytes_at chunk off n : List.length (bytes_at chunk off n) = n.
Proof. unfold bytes_at. rewrite length_map, length_seq. reflexivity. Qed.

Lemma bytes_at_4 chunk off :
  bytes_at chunk off 4
  = [byte_at chunk off; byte_at chunk (off + 1);
     byte_at chunk (off + 2); byte_at chunk (off + 3)].
Proof.
  unfold bytes_at; cbn [seq map Z.of_nat Pos.of_succ_nat Pos.succ].
  rewrite Z.add_0_r. reflexivity.
Qed.

Lemma bytes_at_8 chunk off :
  bytes_at chunk off 8
  = [byte_at chunk off; byte_at chunk (off + 1);
     byte_at chunk (off + 2); byte_at chunk (off + 3);
     byte_at chunk (off + 4); byte_at chunk (off + 5);
     byte_at chunk (off + 6); byte_at chunk (off + 7)].
Proof.
  unfold bytes_at; cbn [seq map Z.of_nat Pos.of_succ_nat Pos.succ].
  rewrite Z.add_0_r. reflexivity.
Qed.

Lemma copy_to_uint32_bytes_at chunk off :
  byte_stream_copy_to_uint32_little_endian (bytes_at chunk off 4)
  = little_endian_value (bytes_at chunk off 4).
Proof. rewrite bytes_at_4. apply copy_to_uint32_little_endian_value. Qed.

Lemma copy_to_uint64_bytes_at chunk off :
  byte_stream_copy_to_uint64_little_endian (bytes_at chunk off 8)
  = little_endian_value (bytes_at chunk off 8).
Proof. rewrite bytes_at_8. apply copy_to_uint64_little_endian_value. Qed.

Lemma little_endian_value_bound bytes :
  0 <= little_endian_value bytes < 256 ^ Z.of_nat (List.length bytes).
Proof.
  induction bytes as [|b rest IH].
  - cbn. lia.
  - cbn [little_endian_value List.length]. rewrite Nat2Z.inj_succ, Z.pow_succ_r by lia.
    pose proof (uint8_range b). lia.
Qed.

(** ** memory_compare *)

Lemma memory_compare_eq n : forall a b,
  List.length a = n -> List.length b = n ->
  (memory_compare a b n = 0 <-> a = b).
Proof.
  induction n as [|n IH]; intros a b Ha Hb.
  - destruct a, b; try discriminate. cbn. tauto.
  - destruct a as [|x a], b as [|y b]; try discriminate.
    cbn [memory_compare hd tl].
    injection Ha as Ha. injection Hb as Hb.
    destruct (Z.eqb_spec (uint8 x) (uint8 y)) as [E | NE].
    + apply uint8_inj in E. subst y. rewrite (IH a b Ha Hb).
      split; intros H; [subst; reflexivity | injection H; auto].
    + split; intros H; [lia | injection H as -> _; congruence].
Qed.

(** ** The header part of the reader *)

(** The header part, case by case. *)
Lemma read_record_header_cases chunk_data_size chunk_data_offset s :
  read_record_header chunk_data_size chunk_data_offset s =
  if SSIZE_MAX <? chunk_data_size then Some (inl E_size_exceeds_maximum, s)
  else if chunk_data_size <=? chunk_data_offset then
    Some (inl E_offset_out_of_bounds, s)
  else if to_size_t (chunk_data_size - chunk_data_offset)
          <? sizeof_evtx_event_record_header_t + 4 then
    Some (inl E_size_too_small, s)
  else if negb (memory_compare
                  (bytes_at (st_chunk_data s)
                     (chunk_data_offset + offsetof_signature) 4)
                  evtx_event_record_signature 4 =? 0) then
    Some (inl E_unsupported_signature,
          mk_state (st_chunk_data s) (st_event_values s)
            (mk_access (chunk_data_offset + offsetof_signature) 4 :: st_reads s)
            (st_tokens s))
  else
    let ev := header_fields (st_chunk_data s) chunk_data_offset in
    let s' := mk_state (st_chunk_data s) ev
                (header_reads chunk_data_offset (size ev) ++ st_reads s)
                (st_tokens s) in
    if (size ev <? sizeof_evtx_event_record_header_t)
       || (to_size_t (chunk_data_size - chunk_data_offset) - 4 <? size ev)
    then Some (inl E_size_out_of_bounds, s')
    else Some (inr (payload_offset chunk_data_offset, payload_length (size ev)), s').
Proof.
  unfold read_record_header.
  destruct (SSIZE_MAX <? chunk_data_size); [reflexivity|].
  destruct (chunk_data_size <=? chunk_data_offset); [reflexivity|].
  destruct (to_size_t (chunk_data_size - chunk_data_offset)
            <? sizeof_evtx_event_record_header_t + 4); [reflexivity|].
  unfold bind at 1. unfold load at 1. cbn [st_chunk_data].
  destruct (negb (memory_compare _ _ 4 =? 0)); [reflexivity|].
  cbv beta iota zeta delta [bind load set_size set_identifier set_creation_time
    get_event_values set_event_values st_chunk_data st_event_values st_reads
    st_tokens size identifier creation_time header_fields header_reads].
  cbn [app].
  match goal with |- context [(?a <? ?b) || (?c <? ?d)] =>
    destruct ((a <? b) || (c <? d)); reflexivity end.
Qed.

(** ** The loop over the tokens *)

Lemma total_consumed_app ts us :
  total_consumed (ts ++ us) = total_consumed ts + total_consumed us.
Proof.
  induction ts as [|t ts IH]; cbn [app total_consumed fold_right].
  - reflexivity.
  - fold (total_consumed (ts ++ us)). fold (total_consumed ts). lia.
Qed.

Section TokenLoop.

Context {io_handle_t : Type}.
Variable token_functions : binary_xml_token_functions io_handle_t.
Variable io_handle : io_handle_t.
Variable chunk_data_size : Z.

Let loop := read_tokens token_functions.

(** The loop is left at once when the offset is not below the size of
    the chunk. *)
Lemma read_tokens_done fuel iteration chunk_data_offset s :
  chunk_data_size <= chunk_data_offset ->
  loop fuel io_handle chunk_data_size iteration chunk_data_offset s
  = Some (inr chunk_data_offset, s).
Proof.
  intros H. unfold loop.
  destruct fuel; cbn [read_tokens];
    rewrite (proj2 (Z.ltb_ge _ _) H); reflexivity.
Qed.

(** One iteration of the loop. *)
Lemma read_tokens_step fuel iteration chunk_data_offset s :
  chunk_data_offset < chunk_data_size ->
  loop (S fuel) io_handle chunk_data_size iteration chunk_data_offset s
  = if negb (libevtx_binary_xml_token_initialize token_functions iteration)
    then Some (inl E_token_create, s)
    else
      match libevtx_binary_xml_token_read token_functions io_handle
              (st_chunk_data s) chunk_data_size chunk_data_offset with
      | None => Some (inl E_token_read, s)
      | Some binary_xml_token =>
          let token_bytes := to_size_t (token_size binary_xml_token) in
          let s' := mk_state (st_chunk_data s) (st_event_values s) (st_reads s)
                      (st_tokens s ++ [mk_decoded chunk_data_offset token_bytes]) in
          if negb (libevtx_binary_xml_token_free token_functions iteration)
          then Some (inl E_token_free, s')
          else loop fuel io_handle chunk_data_size (S iteration)
                 (to_size_t (chunk_data_offset + token_bytes)) s'
      end.
Proof.
  intros H. unfold loop. cbn [read_tokens].
  rewrite (proj2 (Z.ltb_lt _ _) H).
  destruct (negb (libevtx_binary_xml_token_initialize token_functions iteration));
    [reflexivity|].
  destruct (libevtx_binary_xml_token_read token_functions io_handle
              (st_chunk_data s) chunk_data_size chunk_data_offset)
    as [tok|]; [|reflexivity].
  cbv beta zeta. unfold bind at 1, record_token at 1.
  destruct (negb (libevtx_binary_xml_token_free token_functions iteration));
    reflexivity.
Qed.

Lemma read_tokens_out_of_fuel iteration chunk_data_offset s :
  chunk_data_offset < chunk_data_size ->
  loop 0%nat io_handle chunk_data_size iteration chunk_data_offset s = None.
Proof.
  intros H. unfold loop. cbn [read_tokens].
  rewrite (proj2 (Z.ltb_lt _ _) H). reflexivity.
Qed.

(** What a loop that comes back has done: the buffer, the event values
    and the reads are as before; tokens were added, each of a size that
    is a [size_t]; when it comes back without an error the offset is not
    below the size of the chunk and is at most the start plus the sizes
    of the tokens; an error is one of the three of the loop. *)
Lemma read_tokens_inv fuel : forall iteration chunk_data_offset s r s',
  loop fuel io_handle chunk_data_size iteration chunk_data_offset s = Some (r, s') ->
  st_chunk_data s' = st_chunk_data s /\
  st_event_values s' = st_event_values s /\
  st_reads s' = st_reads s /\
  exists tokens,
    st_tokens s' = st_tokens s ++ tokens /\
    Forall (fun t => 0 <= consumed_bytes t) tokens /\
    match r with
    | inr final_offset =>
        chunk_data_size <= final_offset /\
        (0 <= chunk_data_offset ->
         final_offset <= chunk_data_offset + total_consumed tokens) /\
        (chunk_data_offset < chunk_data_size -> tokens <> [])
    | inl e => e = E_token_create \/ e = E_token_read \/ e = E_token_free
    end.
Proof.
  induction fuel as [|fuel IH]; intros iteration off s r s' Hrun.
  - destruct (Z.lt_ge_cases off chunk_data_size) as [Hlt | Hge].
    + rewrite read_tokens_out_of_fuel in Hrun by exact Hlt. discriminate.
    + rewrite read_tokens_done in Hrun by exact Hge.
      injection Hrun as <- <-. repeat split; try reflexivity.
      exists []. rewrite app_nil_r. repeat split; auto; cbn; lia.
  - destruct (Z.lt_ge_cases off chunk_data_size) as [Hlt | Hge].
    + rewrite read_tokens_step in Hrun by exact Hlt.
      destruct (negb (libevtx_binary_xml_token_initialize token_functions iteration)).
      { injection Hrun as <- <-. repeat split; try reflexivity.
        exists []. rewrite app_nil_r. repeat split; auto. }
      destruct (libevtx_binary_xml_token_read token_functions io_handle
                  (st_chunk_data s) chunk_data_size off) as [tok|].
      2:{ injection Hrun as <- <-. repeat split; try reflexivity.
          exists []. rewrite app_nil_r. repeat split; auto. }
      cbv zeta in Hrun.
      pose proof (to_size_t_range (token_size tok)) as Htok.
      destruct (negb (libevtx_binary_xml_token_free token_functions iteration)).
      { injection Hrun as <- <-. cbn [st_chunk_data st_event_values st_reads st_tokens].
        repeat split; try reflexivity.
        exists [mk_decoded off (to_size_t (token_size tok))].
        split; [reflexivity|].
        split; [constructor; [cbn; lia | constructor] | auto]. }
      apply IH in Hrun.
      cbn [st_chunk_data st_event_values st_reads st_tokens] in Hrun.
      destruct Hrun as (Hc & He & Hr & tokens & Ht & Hall & Hres).
      repeat split; try assumption.
      exists (mk_decoded off (to_size_t (token_size tok)) :: tokens).
      split; [rewrite Ht, <- app_assoc; reflexivity|].
      split; [constructor; [cbn; lia | exact Hall]|].
      destruct r as [e | final]; [exact Hres|].
      destruct Hres as (Hfin & Hsum & _).
      split; [exact Hfin|]. split; [|discriminate].
      intros Hoff. cbn [total_consumed fold_right consumed_bytes].
      fold (total_consumed tokens).
      pose proof (to_size_t_range (off + to_size_t (token_size tok))) as Hr1.
      pose proof (to_size_t_le (off + to_size_t (token_size tok))) as Hr2.
      specialize (Hsum ltac:(lia)). lia.
    + rewrite read_tokens_done in Hrun by exact Hge.
      injection Hrun as <- <-. repeat split; try reflexivity.
      exists []. rewrite app_nil_r. repeat split; auto; cbn; lia.
Qed.

End TokenLoop.

Section TokenLoopProgress.

Context {io_handle_t : Type}.
Variable token_functions : binary_xml_token_functions io_handle_t.
Variable io_handle : io_handle_t.
Variable chunk_data_size : Z.

(** With tokens of at least one byte that do not wrap the offset
    around, the loop comes back within [chunk_data_size -
    chunk_data_offset] iterations. *)
Lemma read_tokens_terminates :
  (forall chunk off tok,
      off < chunk_data_size ->
      libevtx_binary_xml_token_read token_functions io_handle chunk
        chunk_data_size off = Some tok ->
      1 <= to_size_t (token_size tok) /\
      off + to_size_t (token_size tok) < size_t_modulus) ->
  forall fuel iteration chunk_data_offset s,
    0 <= chunk_data_offset ->
    chunk_data_size - chunk_data_offset <= Z.of_nat fuel ->
    exists r s',
      read_tokens token_functions fuel io_handle chunk_data_size iteration
        chunk_data_offset s = Some (r, s') /\
      Z.of_nat (List.length (st_tokens s'))
      <= Z.of_nat (List.length (st_tokens s))
         + Z.max 0 (chunk_data_size - chunk_data_offset).
Proof.
  intros Hdec. induction fuel as [|fuel IH]; intros iteration off s Hoff Hfuel.
  - rewrite read_tokens_done by lia. do 2 eexists. split; [reflexivity | lia].
  - destruct (Z.lt_ge_cases off chunk_data_size) as [Hlt | Hge].
    2:{ rewrite read_tokens_done by lia. do 2 eexists. split; [reflexivity | lia]. }
    rewrite read_tokens_step by exact Hlt.
    destruct (negb (libevtx_binary_xml_token_initialize token_functions iteration)).
    { do 2 eexists. split; [reflexivity | lia]. }
    destruct (libevtx_binary_xml_token_read token_functions io_handle
                (st_chunk_data s) chunk_data_size off) as [tok|] eqn:Hread.
    2:{ do 2 eexists. split; [reflexivity | lia]. }
    cbv zeta. destruct (Hdec _ _ _ Hlt Hread) as [Hone Hwrap].
    destruct (negb (libevtx_binary_xml_token_free token_functions iteration)).
    { do 2 eexists. split; [reflexivity|].
      cbn [st_tokens]. rewrite length_app. cbn [List.length]. lia. }
    rewrite (to_size_t_small (off + _)) by lia.
    edestruct (IH (S iteration) (off + to_size_t (token_size tok))) as (r & s' & Hrun & Hlen);
      [lia | | rewrite Hrun; exists r, s'; split; [reflexivity|]].
    + rewrite Nat2Z.inj_succ in Hfuel. lia.
    + cbn [st_tokens] in Hlen. rewrite length_app in Hlen. cbn [List.length] in Hlen. lia.
Qed.

(** A token of size 0 leaves the offset where it is: the loop reads at
    the same offset again, and can only come back through a failure to
    create or to free a token. *)
Lemma read_tokens_no_progress chunk tok chunk_data_offset :
  chunk_data_size <= SSIZE_MAX ->
  0 <= chunk_data_offset < chunk_data_size ->
  libevtx_binary_xml_token_read token_functions io_handle chunk
    chunk_data_size chunk_data_offset = Some tok ->
  token_size tok = 0 ->
  forall fuel iteration s,
    st_chunk_data s = chunk ->
    match read_tokens token_functions fuel io_handle chunk_data_size iteration
            chunk_data_offset s with
    | None => True
    | Some (r, _) => r = inl E_token_create \/ r = inl E_token_free
    end /\
    ((forall n, libevtx_binary_xml_token_initialize token_functions n = true) ->
     (forall n, libevtx_binary_xml_token_free token_functions n = true) ->
     read_tokens token_functions fuel io_handle chunk_data_size iteration
       chunk_data_offset s = None).
Proof.
  intros Hmax Hoff Hread Hzero.
  induction fuel as [|fuel IH]; intros iteration s Hchunk.
  - rewrite read_tokens_out_of_fuel by lia. split; [exact I | reflexivity].
  - rewrite read_tokens_step by lia. rewrite Hchunk, Hread. cbv zeta.
    rewrite Hzero. change (to_size_t 0) with 0. rewrite Z.add_0_r.
    rewrite to_size_t_small
      by (unfold SSIZE_MAX, size_t_modulus in *;
          change (2 ^ 63) with 9223372036854775808 in *;
          change (2 ^ 64) with 18446744073709551616; lia).
    destruct (libevtx_binary_xml_token_initialize token_functions iteration) eqn:Hi;
      cbn [negb].
    2:{ split; [left; reflexivity|]. intros Hinit _. rewrite Hinit in Hi. discriminate. }
    destruct (libevtx_binary_xml_token_free token_functions iteration) eqn:Hf;
      cbn [negb].
    2:{ split; [right; reflexivity|]. intros _ Hfree. rewrite Hfree in Hf. discriminate. }
    apply IH. reflexivity.
Qed.

End TokenLoopProgress.

(** ** The reader as a whole *)

Section ReaderFacts.

Context {io_handle_t : Type}.
Variable token_functions : binary_xml_token_functions io_handle_t.

(** With no argument NULL the reader is the header part followed by the
    loop, run from a state with nothing read yet. *)
Lemma read_non_null fuel ev io chunk chunk_data_size chunk_data_offset :
  libevtx_event_values_read token_functions fuel (Some ev) (Some io)
    (Some chunk) chunk_data_size chunk_data_offset
  = match read_record token_functions fuel io chunk_data_size chunk_data_offset
            (mk_state chunk ev [] []) with
    | None => None
    | Some (r, s) =>
        Some (mk_outcome
                match r with inl e => Failure e | inr _ => Success end
                (Some (st_event_values s)) (Some (st_chunk_data s))
                (st_reads s) (st_tokens s))
    end.
Proof. reflexivity. Qed.

(** The ways a run of header part and loop can end. *)
Lemma read_record_inv fuel io chunk ev chunk_data_size chunk_data_offset r s' :
  read_record token_functions fuel io chunk_data_size chunk_data_offset
    (mk_state chunk ev [] []) = Some (r, s') ->
  st_chunk_data s' = chunk /\
  ((exists e, r = inl e /\
              In e [E_size_exceeds_maximum; E_offset_out_of_bounds;
                    E_size_too_small; E_unsupported_signature] /\
              st_event_values s' = ev /\ st_tokens s' = []) \/
   (let fields := header_fields chunk chunk_data_offset in
    let remaining := to_size_t (chunk_data_size - chunk_data_offset) in
    chunk_data_size <= SSIZE_MAX /\
    chunk_data_offset < chunk_data_size /\
    sizeof_evtx_event_record_header_t + 4 <= remaining /\
    bytes_at chunk (chunk_data_offset + offsetof_signature) 4
      = evtx_event_record_signature /\
    st_event_values s' = fields /\
    st_reads s' = header_reads chunk_data_offset (size fields) /\
    ((r = inl E_size_out_of_bounds /\ st_tokens s' = [] /\
      (size fields < sizeof_evtx_event_record_header_t \/
       remaining - 4 < size fields)) \/
     (sizeof_evtx_event_record_header_t <= size fields <= remaining - 4 /\
      read_tokens token_functions fuel io chunk_data_size 0%nat
        (payload_offset chunk_data_offset)
        (mk_state chunk fields
           (header_reads chunk_data_offset (size fields)) [])
      = Some (r, s'))))).
Proof.
  unfold read_record, bind. rewrite read_record_header_cases.
  cbn [st_chunk_data st_event_values st_reads st_tokens].
  destruct (Z.ltb_spec SSIZE_MAX chunk_data_size) as [H1 | H1].
  { intros H; injection H as <- <-. split; [reflexivity|]. left.
    eexists; repeat split; cbn; auto. }
  destruct (Z.leb_spec chunk_data_size chunk_data_offset) as [H2 | H2].
  { intros H; injection H as <- <-. split; [reflexivity|]. left.
    eexists; repeat split; cbn; auto. }
  destruct (Z.ltb_spec (to_size_t (chunk_data_size - chunk_data_offset))
              (sizeof_evtx_event_record_header_t + 4)) as [H3 | H3].
  { intros H; injection H as <- <-. split; [reflexivity|]. left.
    eexists; repeat split; cbn; auto. }
  destruct (Z.eqb_spec
              (memory_compare
                 (bytes_at chunk (chunk_data_offset + offsetof_signature) 4)
                 evtx_event_record_signature 4) 0) as [H4 | H4]; cbn [negb].
  2:{ intros H; injection H as <- <-. split; [reflexivity|]. left.
      eexists; repeat split; cbn; auto 6. }
  apply memory_compare_eq in H4; [|apply length_bytes_at | reflexivity].
  cbv zeta. rewrite app_nil_r.
  destruct (Z.ltb_spec (size (header_fields chunk chunk_data_offset))
              sizeof_evtx_event_record_header_t) as [H5 | H5]; cbn [orb].
  { intros H; injection H as <- <-. split; [reflexivity|]. right.
    repeat split; auto; left; repeat split; auto. }
  destruct (Z.ltb_spec (to_size_t (chunk_data_size - chunk_data_offset) - 4)
              (size (header_fields chunk chunk_data_offset))) as [H6 | H6].
  { intros H; injection H as <- <-. split; [reflexivity|]. right.
    repeat split; auto; left; repeat split; auto. }
  cbn [fst]. intros Hloop.
  pose proof (read_tokens_inv _ _ _ _ _ _ _ _ _ Hloop) as (Hc & He & Hr & _).
  cbn [st_chunk_data st_event_values st_reads] in Hc, He, Hr.
  split; [exact Hc|]. right. repeat split; auto.
Qed.

End ReaderFacts.

(** Arithmetic on the constants of the machine. *)
Ltac machine_lia :=
  unfold SSIZE_MAX, size_t_modulus, uint32_modulus,
    sizeof_evtx_event_record_header_t in *;
  change (2 ^ 63) with 9223372036854775808 in *;
  change (2 ^ 64) with 18446744073709551616 in *;
  change (2 ^ 32) with 4294967296 in *;
  lia.

Lemma remaining_exact chunk_data_size chunk_data_offset :
  chunk_data_size <= SSIZE_MAX ->
  0 <= chunk_data_offset < chunk_data_size ->
  to_size_t (chunk_data_size - chunk_data_offset)
  = chunk_data_size - chunk_data_offset.
Proof. intros H1 H2. apply to_size_t_small. machine_lia. Qed.

Lemma payload_offset_exact chunk_data_size chunk_data_offset :
  chunk_data_size <= SSIZE_MAX ->
  0 <= chunk_data_offset < chunk_data_size ->
  payload_offset chunk_data_offset
  = chunk_data_offset + sizeof_evtx_event_record_header_t.
Proof. intros H1 H2. apply to_size_t_small. machine_lia. Qed.

Lemma to_size_t_negative z :
  - size_t_modulus <= z < 0 -> to_size_t z = z + size_t_modulus.
Proof.
  intros H. unfold to_size_t. symmetry.
  apply (Z.mod_unique z size_t_modulus (-1)); machine_lia.
Qed.

Section ReaderRuns.

Context {io_handle_t : Type}.
Variable token_functions : binary_xml_token_functions io_handle_t.

(** A record that passes every check of the header part: the reader is
    then the loop, started at the end of the header. *)
Lemma read_record_accepted fuel io chunk ev chunk_data_size chunk_data_offset :
  let fields := header_fields chunk chunk_data_offset in
  let remaining := to_size_t (chunk_data_size - chunk_data_offset) in
  chunk_data_size <= SSIZE_MAX ->
  chunk_data_offset < chunk_data_size ->
  sizeof_evtx_event_record_header_t + 4 <= remaining ->
  bytes_at chunk (chunk_data_offset + offsetof_signature) 4
    = evtx_event_record_signature ->
  sizeof_evtx_event_record_header_t <= size fields <= remaining - 4 ->
  read_record token_functions fuel io chunk_data_size chunk_data_offset
    (mk_state chunk ev [] [])
  = read_tokens token_functions fuel io chunk_data_size 0%nat
      (payload_offset chunk_data_offset)
      (mk_state chunk fields (header_reads chunk_data_offset (size fields)) []).
Proof.
  intros fields remaining; subst fields remaining; intros H1 H2 H3 H4 H5.
  unfold read_record, bind. rewrite read_record_header_cases.
  cbn [st_chunk_data st_event_values st_reads st_tokens].
  rewrite (proj2 (Z.ltb_ge _ _) H1).
  rewrite (proj2 (Z.leb_gt _ _) H2).
  rewrite (proj2 (Z.ltb_ge _ _) H3).
  rewrite H4. cbv zeta.
  rewrite (proj2 (Z.ltb_ge _ _) (proj1 H5)).
  rewrite (proj2 (Z.ltb_ge _ _) (proj2 H5)).
  rewrite app_nil_r. reflexivity.
Qed.

(** A size below the size of the header, or above what remains of the
    chunk less 4, is rejected once the signature has been accepted. *)
Lemma size_out_of_bounds_rejected fuel io chunk ev chunk_data_size chunk_data_offset :
  let fields := header_fields chunk chunk_data_offset in
  let remaining := to_size_t (chunk_data_size - chunk_data_offset) in
  chunk_data_size <= SSIZE_MAX ->
  chunk_data_offset < chunk_data_size ->
  sizeof_evtx_event_record_header_t + 4 <= remaining ->
  bytes_at chunk (chunk_data_offset + offsetof_signature) 4
    = evtx_event_record_signature ->
  size fields < sizeof_evtx_event_record_header_t \/ remaining - 4 < size fields ->
  libevtx_event_values_read token_functions fuel (Some ev) (Some io)
    (Some chunk) chunk_data_size chunk_data_offset
  = Some (mk_outcome (Failure E_size_out_of_bounds) (Some fields) (Some chunk)
            (header_reads chunk_data_offset (size fields)) []).
Proof.
  intros fields remaining; subst fields remaining; intros H1 H2 H3 H4 H5.
  rewrite read_non_null. unfold read_record, bind.
  rewrite read_record_header_cases.
  cbn [st_chunk_data st_event_values st_reads st_tokens].
  rewrite (proj2 (Z.ltb_ge _ _) H1).
  rewrite (proj2 (Z.leb_gt _ _) H2).
  rewrite (proj2 (Z.ltb_ge _ _) H3).
  rewrite H4. cbv zeta.
  match goal with
  | |- context [(?a <? ?b) || (?c <? ?d)] =>
      replace ((a <? b) || (c <? d)) with true
  end.
  - rewrite app_nil_r. reflexivity.
  - symmetry. apply orb_true_iff.
    destruct H5 as [H5 | H5]; [left | right]; apply Z.ltb_lt; exact H5.
Qed.

End ReaderRuns.

(** * The claims *)

(** C10: [libevtx_event_values_free] with a handle that is not NULL comes
    back with 1 whether the target is NULL or not; a target that is NULL
    already is left as it is and nothing is freed; after the call the
    target is NULL, and a second call on the handle comes back with 1 too,
    freeing nothing. *)
Theorem event_values_free_null_tolerant_idempotent :
  forall target : option libevtx_event_values_t,
    libevtx_event_values_free (Some None) = (Success, Some None, 0%nat) /\
    return_code (fst (fst (libevtx_event_values_free (Some target)))) = 1 /\
    snd (fst (libevtx_event_values_free (Some target))) = Some None /\
    libevtx_event_values_free
      (snd (fst (libevtx_event_values_free (Some target))))
    = (Success, Some None, 0%nat).
Proof.
  intros [v|]; cbn; repeat split; reflexivity.
Qed.

(** C8: when no argument is NULL, the size of the chunk is at most
    SSIZE_MAX, the offset lies in the chunk and at least the header and 4
    more bytes remain, a record whose first 4 bytes are not 2A 2A 00 00 is
    rejected with the unsupported-signature error, whatever the other
    bytes, the token reader and the fuel are; only the signature has been
    read and the event values are as they were. *)
Theorem unsupported_signature_rejected :
  forall (io_handle_t : Type)
         (token_functions : binary_xml_token_functions io_handle_t)
         (fuel : nat) (ev : libevtx_event_values_t) (io : io_handle_t)
         (chunk : list byte) (chunk_data_size chunk_data_offset : Z),
    chunk_data_size <= SSIZE_MAX ->
    0 <= chunk_data_offset < chunk_data_size ->
    sizeof_evtx_event_record_header_t + 4 <= chunk_data_size - chunk_data_offset ->
    bytes_at chunk chunk_data_offset 4 <> evtx_event_record_signature ->
    libevtx_event_values_read token_functions fuel (Some ev) (Some io)
      (Some chunk) chunk_data_size chunk_data_offset
    = Some (mk_outcome (Failure E_unsupported_signature) (Some ev) (Some chunk)
              [mk_access chunk_data_offset 4] []) /\
    kind_of E_unsupported_signature = UnsupportedSignature.
Proof.
  intros io_handle_t tf fuel ev io chunk csize coff H1 H2 H3 H4.
  split; [|reflexivity].
  rewrite read_non_null. unfold read_record, bind.
  rewrite read_record_header_cases.
  cbn [st_chunk_data st_event_values st_reads st_tokens].
  rewrite (proj2 (Z.ltb_ge _ _) H1).
  rewrite (proj2 (Z.leb_gt _ _) (proj2 H2)).
  rewrite remaining_exact by assumption.
  rewrite (proj2 (Z.ltb_ge _ _) H3).
  unfold offsetof_signature. rewrite Z.add_0_r.
  destruct (Z.eqb_spec (memory_compare (bytes_at chunk coff 4)
                          evtx_event_record_signature 4) 0) as [E | NE].
  - apply memory_compare_eq in E; [contradiction | apply length_bytes_at | reflexivity].
  - reflexivity.
Qed.

Lemma unsupported_signature_rejected_witness :
  libevtx_event_values_read (Samples.tokens_of_size 4) 3
    (Some zeroed_event_values) (Some tt) (Some Samples.chunk_zeros) 32 0
  = Some (mk_outcome (Failure E_unsupported_signature)
            (Some zeroed_event_values) (Some Samples.chunk_zeros)
            [mk_access 0 4] []) /\
  kind_of E_unsupported_signature = UnsupportedSignature.
Proof.
  apply (unsupported_signature_rejected unit (Samples.tokens_of_size 4) 3
           zeroed_event_values tt Samples.chunk_zeros 32 0).
  - unfold SSIZE_MAX. lia.
  - lia.
  - unfold sizeof_evtx_event_record_header_t. lia.
  - vm_compute. discriminate.
Defined.

(** Every way a call of the reader can come back. *)
Lemma read_outcome_cases (io_handle_t : Type)
    (token_functions : binary_xml_token_functions io_handle_t) fuel
    event_values io_handle chunk_data chunk_data_size chunk_data_offset o :
  libevtx_event_values_read token_functions fuel event_values io_handle
    chunk_data chunk_data_size chunk_data_offset = Some o ->
  out_chunk_data o = chunk_data /\
  ((exists e, out_result o = Failure e /\ In e early_errors /\
              out_event_values o = event_values /\ out_tokens o = []) \/
   (exists ev io chunk,
      let fields := header_fields chunk chunk_data_offset in
      let remaining := to_size_t (chunk_data_size - chunk_data_offset) in
      event_values = Some ev /\ io_handle = Some io /\ chunk_data = Some chunk /\
      chunk_data_size <= SSIZE_MAX /\
      chunk_data_offset < chunk_data_size /\
      sizeof_evtx_event_record_header_t + 4 <= remaining /\
      bytes_at chunk (chunk_data_offset + offsetof_signature) 4
        = evtx_event_record_signature /\
      out_event_values o = Some fields /\
      out_reads o = header_reads chunk_data_offset (size fields) /\
      ((out_result o = Failure E_size_out_of_bounds /\ out_tokens o = [] /\
        (size fields < sizeof_evtx_event_record_header_t \/
         remaining - 4 < size fields)) \/
       (sizeof_evtx_event_record_header_t <= size fields <= remaining - 4 /\
        exists r s',
          read_tokens token_functions fuel io chunk_data_size 0%nat
            (payload_offset chunk_data_offset)
            (mk_state chunk fields
               (header_reads chunk_data_offset (size fields)) [])
          = Some (r, s') /\
          out_result o = match r with inl e => Failure e | inr _ => Success end /\
          out_tokens o = st_tokens s')))).
Proof.
  intros Hread.
  destruct event_values as [ev|].
  2:{ injection Hread as <-. split; [reflexivity|]. left.
      eexists; repeat split; cbn; auto. }
  destruct io_handle as [io|].
  2:{ injection Hread as <-. split; [reflexivity|]. left.
      eexists; repeat split; cbn; auto. }
  destruct chunk_data as [chunk|].
  2:{ injection Hread as <-. split; [reflexivity|]. left.
      eexists; repeat split; cbn; auto. }
  rewrite read_non_null in Hread.
  destruct (read_record token_functions fuel io chunk_data_size
              chunk_data_offset (mk_state chunk ev [] []))
    as [[r s']|] eqn:Hrun; [|discriminate].
  injection Hread as <-. cbn [out_chunk_data out_result out_event_values
                              out_reads out_tokens].
  apply read_record_inv in Hrun. destruct Hrun as [Hchunk Hcases].
  split; [rewrite Hchunk; reflexivity|].
  destruct Hcases as [(e & -> & Hin & Hev & Htok) | Hacc].
  - left. exists e. repeat split; [|rewrite Hev; reflexivity | exact Htok].
    cbn in Hin. cbn. intuition.
  - right. exists ev, io, chunk. cbv zeta in Hacc |- *.
    destruct Hacc as (H1 & H2 & H3 & H4 & Hev & Hreads & Hend).
    repeat (split; [first [reflexivity | assumption | rewrite Hev; reflexivity]|]).
    destruct Hend as [(-> & Htok & Hbad) | (Hok & Hloop)].
    + left. repeat split; assumption.
    + right. split; [exact Hok|]. exists r, s'. repeat split. exact Hloop.
Qed.

(** C9: on every successful call the size, the identifier and the
    creation time stored in the event values are the little-endian values
    of the 4 bytes at offset 4, of the 8 bytes at offset 8 and of the 8
    bytes at offset 16 of the record. *)
Theorem header_fields_little_endian :
  forall (io_handle_t : Type)
         (token_functions : binary_xml_token_functions io_handle_t)
         (fuel : nat) (event_values : option libevtx_event_values_t)
         (io_handle : option io_handle_t) (chunk_data : option (list byte))
         (chunk_data_size chunk_data_offset : Z) (o : outcome),
    libevtx_event_values_read token_functions fuel event_values io_handle
      chunk_data chunk_data_size chunk_data_offset = Some o ->
    out_result o = Success ->
    exists chunk ev,
      chunk_data = Some chunk /\ out_event_values o = Some ev /\
      size ev = little_endian_value (bytes_at chunk (chunk_data_offset + 4) 4) /\
      identifier ev
      = little_endian_value (bytes_at chunk (chunk_data_offset + 8) 8) /\
      creation_time ev
      = little_endian_value (bytes_at chunk (chunk_data_offset + 16) 8).
Proof.
  intros io_handle_t tf fuel evo ioo co csize coff o Hread Hok.
  apply read_outcome_cases in Hread. destruct Hread as [_ [Hearly | Hlate]].
  - destruct Hearly as (e & He & _). rewrite He in Hok. discriminate.
  - destruct Hlate as (ev & io & chunk & Hlate). cbv zeta in Hlate.
    destruct Hlate as (_ & _ & -> & _ & _ & _ & _ & Hev & _).
    exists chunk, (header_fields chunk coff).
    split; [reflexivity|]. split; [exact Hev|].
    unfold header_fields, offsetof_size, offsetof_identifier,
      offsetof_creation_time; cbn [size identifier creation_time].
    rewrite copy_to_uint32_bytes_at, !copy_to_uint64_bytes_at.
    repeat split.
Qed.

Lemma header_fields_little_endian_witness :
  exists chunk ev,
    Some Samples.chunk_empty_payload = Some chunk /\
    Some (Samples.sample_fields 28) = Some ev /\
    size ev = little_endian_value (bytes_at chunk (0 + 4) 4) /\
    identifier ev = little_endian_value (bytes_at chunk (0 + 8) 8) /\
    creation_time ev = little_endian_value (bytes_at chunk (0 + 16) 8).
Proof.
  apply (header_fields_little_endian unit (Samples.tokens_of_size 4) 2
           (Some zeroed_event_values) (Some tt)
           (Some Samples.chunk_empty_payload) 32 0
           (mk_outcome Success (Some (Samples.sample_fields 28))
              (Some Samples.chunk_empty_payload)
              (header_reads 0 28)
              [mk_decoded 24 4; mk_decoded 28 4])).
  - vm_compute. reflexivity.
  - reflexivity.
Defined.

(** C7, as amended: for every record the header part accepts, the two
    locals are [payload_offset = record_start + 24] and [payload_length =
    size - 28] computed as a [size_t]; [payload_offset + payload_length +
    4] equals [record_start + size] modulo 2^64, and exactly when the size
    is at least the size of the header plus 4. *)
Theorem payload_bounds_of_accepted_record :
  forall (chunk_data_size chunk_data_offset : Z) (s s' : state)
         (payload_off payload_len : Z),
    0 <= chunk_data_offset ->
    read_record_header chunk_data_size chunk_data_offset s
    = Some (inr (payload_off, payload_len), s') ->
    let record_size := size (st_event_values s') in
    payload_off = chunk_data_offset + sizeof_evtx_event_record_header_t /\
    payload_len
    = to_size_t (record_size - (sizeof_evtx_event_record_header_t + 4)) /\
    to_size_t (payload_off + payload_len + 4) = chunk_data_offset + record_size /\
    (sizeof_evtx_event_record_header_t + 4 <= record_size ->
     payload_off + payload_len + 4 = chunk_data_offset + record_size).
Proof.
  intros csize coff s s' po pl Hoff Hrun.
  rewrite read_record_header_cases in Hrun.
  destruct (Z.ltb_spec SSIZE_MAX csize) as [H1 | H1]; [discriminate|].
  destruct (Z.leb_spec csize coff) as [H2 | H2]; [discriminate|].
  rewrite remaining_exact in Hrun by lia.
  destruct (Z.ltb_spec (csize - coff) (sizeof_evtx_event_record_header_t + 4))
    as [H3 | H3]; [discriminate|].
  destruct (negb _); [discriminate|]. cbv zeta in Hrun.
  destruct (Z.ltb_spec (size (header_fields (st_chunk_data s) coff))
              sizeof_evtx_event_record_header_t) as [H5 | H5];
    [discriminate|].
  destruct (Z.ltb_spec (csize - coff - 4)
              (size (header_fields (st_chunk_data s) coff))) as [H6 | H6];
    [discriminate|].
  cbn [orb] in Hrun. injection Hrun as <- <- <-.
  cbn [st_event_values]. cbv zeta.
  set (sz := size (header_fields (st_chunk_data s) coff)) in *.
  rewrite (payload_offset_exact csize) by lia.
  unfold payload_length.
  split; [reflexivity|]. split; [reflexivity|].
  destruct (Z.lt_ge_cases sz (sizeof_evtx_event_record_header_t + 4)) as [Hlt | Hge].
  - split; [|lia].
    rewrite (to_size_t_negative (sz - _)) by machine_lia.
    unfold to_size_t.
    replace (coff + sizeof_evtx_event_record_header_t
             + (sz - (sizeof_evtx_event_record_header_t + 4) + size_t_modulus) + 4)
      with (coff + sz + 1 * size_t_modulus) by lia.
    rewrite Z.mod_add by (unfold size_t_modulus; lia).
    apply Z.mod_small. machine_lia.
  - rewrite (to_size_t_small (sz - _)) by machine_lia.
    split; [|lia].
    replace (coff + sizeof_evtx_event_record_header_t
             + (sz - (sizeof_evtx_event_record_header_t + 4)) + 4)
      with (coff + sz) by lia.
    apply to_size_t_small. machine_lia.
Qed.

Lemma payload_bounds_of_accepted_record_witness :
  24 = 0 + sizeof_evtx_event_record_header_t /\
  4 = to_size_t (32 - (sizeof_evtx_event_record_header_t + 4)) /\
  to_size_t (24 + 4 + 4) = 0 + 32 /\
  (sizeof_evtx_event_record_header_t + 4 <= 32 -> 24 + 4 + 4 = 0 + 32).
Proof.
  apply (payload_bounds_of_accepted_record 36 0
           (mk_state Samples.chunk_payload_4 zeroed_event_values [] [])
           (mk_state Samples.chunk_payload_4 (Samples.sample_fields 32)
              (header_reads 0 32) [])
           24 4).
  - lia.
  - vm_compute. reflexivity.
Defined.

(** C7, the claim as stated fails: a record of size 24 is accepted (the
    whole call succeeds), the header part leaves [payload_length = 2^64 -
    4], and [payload_offset + payload_length + 4] is not [record_start +
    size]. *)
Lemma payload_length_wraps_for_size_24 :
  option_map fst
    (read_record_header 32 0
       (mk_state Samples.chunk_size_24 zeroed_event_values [] []))
  = Some (inr (24, 18446744073709551612)) /\
  option_map out_result
    (libevtx_event_values_read (Samples.tokens_of_size 8) 1
       (Some zeroed_event_values) (Some tt) (Some Samples.chunk_size_24) 32 0)
  = Some Success /\
  24 + 18446744073709551612 + 4 <> 0 + 24.
Proof.
  split; [vm_compute; reflexivity|].
  split; [vm_compute; reflexivity|].
  lia.
Qed.

(** The event values after a call, by the kind of result. *)
Lemma read_frame_cases :
  forall (io_handle_t : Type)
         (token_functions : binary_xml_token_functions io_handle_t)
         (fuel : nat) (event_values : option libevtx_event_values_t)
         (io_handle : option io_handle_t) (chunk_data : option (list byte))
         (chunk_data_size chunk_data_offset : Z) (o : outcome),
    libevtx_event_values_read token_functions fuel event_values io_handle
      chunk_data chunk_data_size chunk_data_offset = Some o ->
    out_chunk_data o = chunk_data /\
    (((exists e, out_result o = Failure e /\ In e early_errors) /\
      out_event_values o = event_values) \/
     ((out_result o = Success \/
       exists e, out_result o = Failure e /\ In e late_errors) /\
      exists chunk,
        chunk_data = Some chunk /\
        out_event_values o = Some (header_fields chunk chunk_data_offset))).
Proof.
  intros io_handle_t tf fuel evo ioo co csize coff o Hread.
  apply read_outcome_cases in Hread. destruct Hread as [Hchunk [Hearly | Hlate]].
  - split; [exact Hchunk|]. left.
    destruct Hearly as (e & He & Hin & Hev & _). split; [exists e; auto | exact Hev].
  - split; [exact Hchunk|]. right.
    destruct Hlate as (ev & io & chunk & Hlate). cbv zeta in Hlate.
    destruct Hlate as (_ & _ & -> & _ & _ & _ & _ & Hev & _ & Hend).
    split; [|exists chunk; auto].
    destruct Hend as [(Hr & _) | (_ & r & s' & Hloop & Hr & _)].
    + right. eexists; split; [exact Hr | cbn; auto].
    + destruct r as [e | final]; [|left; exact Hr].
      right. exists e. split; [exact Hr|].
      apply read_tokens_inv in Hloop.
      destruct Hloop as (_ & _ & _ & tokens & _ & _ & [-> | [-> | ->]]);
        cbn; auto.
Qed.

(** C6, as amended: a call never changes the chunk buffer; when it comes
    back with an error raised before the signature has been accepted (a
    NULL argument, the size of the chunk, the offset, too few bytes, the
    signature) the event values are as they were; when it comes back with
    success or with a later error (the bounds of the size, a token) the
    event values hold the three header fields of the record. *)
Theorem read_frame :
  forall (io_handle_t : Type)
         (token_functions : binary_xml_token_functions io_handle_t)
         (fuel : nat) (event_values : option libevtx_event_values_t)
         (io_handle : option io_handle_t) (chunk_data : option (list byte))
         (chunk_data_size chunk_data_offset : Z) (o : outcome),
    libevtx_event_values_read token_functions fuel event_values io_handle
      chunk_data chunk_data_size chunk_data_offset = Some o ->
    out_chunk_data o = chunk_data /\
    (((exists e, out_result o = Failure e /\ In e early_errors) /\
      out_event_values o = event_values) \/
     ((out_result o = Success \/
       exists e, out_result o = Failure e /\ In e late_errors) /\
      exists chunk,
        chunk_data = Some chunk /\
        out_event_values o = Some (header_fields chunk chunk_data_offset))).
Proof.
  intros io_handle_t tf fuel evo ioo co csize coff o Hread.
  exact (read_frame_cases io_handle_t tf fuel evo ioo co csize coff o Hread).
Qed.

Lemma read_frame_witness :
  Some Samples.chunk_size_40 = Some Samples.chunk_size_40 /\
  (((exists e, Failure E_size_out_of_bounds = Failure e /\ In e early_errors) /\
    Some (Samples.sample_fields 40) = Some zeroed_event_values) \/
   ((Failure E_size_out_of_bounds = Success \/
     exists e, Failure E_size_out_of_bounds = Failure e /\ In e late_errors) /\
    exists chunk,
      Some Samples.chunk_size_40 = Some chunk /\
      Some (Samples.sample_fields 40) = Some (header_fields chunk 0))).
Proof.
  apply (read_frame unit (Samples.tokens_of_size 4) 0
           (Some zeroed_event_values) (Some tt) (Some Samples.chunk_size_40)
           30 0
           (mk_outcome (Failure E_size_out_of_bounds)
              (Some (Samples.sample_fields 40)) (Some Samples.chunk_size_40)
              (header_reads 0 40) [])).
  vm_compute. reflexivity.
Defined.

(** C6, the claim as stated fails: a header that declares the size 40 in
    a chunk of 30 bytes is rejected, and the event values passed in
    (zeroed) hold the size 40, the identifier and the creation time of the
    record afterwards. *)
Lemma error_leaves_event_values_modified :
  libevtx_event_values_read (Samples.tokens_of_size 4) 0
    (Some zeroed_event_values) (Some tt) (Some Samples.chunk_size_40) 30 0
  = Some (mk_outcome (Failure E_size_out_of_bounds)
            (Some (mk_event_values 40 1 454862250000000))
            (Some Samples.chunk_size_40) (header_reads 0 40) []) /\
  Some (mk_event_values 40 1 454862250000000) <> Some zeroed_event_values.
Proof.
  split; [vm_compute; reflexivity | discriminate].
Qed.

(** C2, as amended: the loop has no check of the size of a token.
    Whatever size a token reports, a size that moves the offset past the
    end of the payload included, once the token has been created, read
    and freed the loop adds the size to the offset, the sum taken as a
    [size_t], and goes on from there.  The reader fails with one of its
    eleven errors only.  On every successful call the sizes of the tokens
    read sum to at least [chunk_data_size - payload_offset], and to at
    least [payload_length] when the size of the record is at least the
    size of the header plus 4. *)
Theorem token_size_unchecked_walk_consumes_at_least_payload :
  forall (io_handle_t : Type)
         (token_functions : binary_xml_token_functions io_handle_t),
    (forall (fuel : nat) (io : io_handle_t) (chunk_data_size : Z)
            (iteration : nat) (chunk_data_offset : Z) (s : state)
            (tok : libevtx_binary_xml_token_t),
        chunk_data_offset < chunk_data_size ->
        libevtx_binary_xml_token_initialize token_functions iteration = true ->
        libevtx_binary_xml_token_read token_functions io (st_chunk_data s)
          chunk_data_size chunk_data_offset = Some tok ->
        libevtx_binary_xml_token_free token_functions iteration = true ->
        read_tokens token_functions (S fuel) io chunk_data_size iteration
          chunk_data_offset s
        = read_tokens token_functions fuel io chunk_data_size (S iteration)
            (to_size_t (chunk_data_offset + to_size_t (token_size tok)))
            (mk_state (st_chunk_data s) (st_event_values s) (st_reads s)
               (st_tokens s
                ++ [mk_decoded chunk_data_offset
                      (to_size_t (token_size tok))]))) /\
    (forall (fuel : nat) (event_values : option libevtx_event_values_t)
            (io_handle : option io_handle_t) (chunk_data : option (list byte))
            (chunk_data_size chunk_data_offset : Z) (o : outcome),
        0 <= chunk_data_offset ->
        libevtx_event_values_read token_functions fuel event_values io_handle
          chunk_data chunk_data_size chunk_data_offset = Some o ->
        (forall e, out_result o = Failure e ->
                   In e (early_errors ++ late_errors)) /\
        (out_result o = Success ->
         exists ev,
           out_event_values o = Some ev /\
           chunk_data_size
           <= payload_offset chunk_data_offset + total_consumed (out_tokens o) /\
           (sizeof_evtx_event_record_header_t + 4 <= size ev ->
            payload_length (size ev) <= total_consumed (out_tokens o)))).
Proof.
  intros io_handle_t tf. split.
  - intros fuel io csize iteration off s tok Hlt Hinit Hread Hfree.
    rewrite read_tokens_step by exact Hlt.
    rewrite Hinit, Hread, Hfree. reflexivity.
  - intros fuel evo ioo co csize coff o Hoff Hread.
    pose proof (read_frame_cases _ _ _ _ _ _ _ _ _ Hread) as [_ Hframe].
    apply read_outcome_cases in Hread. destruct Hread as [_ Hcases].
    split.
    + intros e He. apply in_or_app.
      destruct Hframe as [[(e' & He' & Hin) _] | [[Hs | (e' & He' & Hin)] _]].
      * left. congruence.
      * congruence.
      * right. congruence.
    + intros Hok.
      destruct Hcases as [(e & He & _) | Hlate]; [congruence|].
      destruct Hlate as (ev & io & chunk & Hlate). cbv zeta in Hlate.
      destruct Hlate as (_ & _ & _ & H1 & H2 & H3 & _ & Hev & _ & Hend).
      destruct Hend as [(Hr & _) | (Hsize & r & s' & Hloop & Hr & Htok)];
        [congruence|].
      destruct r as [e | final]; [congruence|].
      apply read_tokens_inv in Hloop. cbn [st_tokens app] in Hloop.
      destruct Hloop as (_ & _ & _ & tokens & Htokens & _ & Hfin & Hsum & _).
      rewrite Htok, Htokens.
      rewrite remaining_exact in H3, Hsize by lia.
      rewrite (payload_offset_exact csize) in * by lia.
      specialize (Hsum ltac:(unfold sizeof_evtx_event_record_header_t; lia)).
      exists (header_fields chunk coff).
      split; [exact Hev|]. split; [lia|].
      intros Hbig. unfold payload_length.
      rewrite to_size_t_small by machine_lia. lia.
Qed.

Lemma token_size_unchecked_walk_consumes_at_least_payload_witness :
  let s := mk_state Samples.chunk_payload_4 (Samples.sample_fields 32)
             (header_reads 0 32) [] in
  read_tokens (Samples.tokens_of_size 100) 1 tt 36 0 24 s
  = read_tokens (Samples.tokens_of_size 100) 0 tt 36 1
      (to_size_t (24 + to_size_t (token_size (mk_token 100))))
      (mk_state (st_chunk_data s) (st_event_values s) (st_reads s)
         (st_tokens s
          ++ [mk_decoded 24 (to_size_t (token_size (mk_token 100)))])) /\
  ((forall e, Success = Failure e -> In e (early_errors ++ late_errors)) /\
   (Success = Success ->
    exists ev,
      Some (Samples.sample_fields 32) = Some ev /\
      36 <= payload_offset 0 + total_consumed [mk_decoded 24 100] /\
      (sizeof_evtx_event_record_header_t + 4 <= size ev ->
       payload_length (size ev) <= total_consumed [mk_decoded 24 100]))).
Proof.
  intros s.
  pose proof (token_size_unchecked_walk_consumes_at_least_payload unit
                (Samples.tokens_of_size 100)) as [Hstep Hrun].
  split.
  - apply (Hstep 0%nat tt 36 0%nat 24 s (mk_token 100)).
    + lia.
    + reflexivity.
    + reflexivity.
    + reflexivity.
  - apply (Hrun 1%nat (Some zeroed_event_values) (Some tt)
             (Some Samples.chunk_payload_4) 36 0
             (mk_outcome Success (Some (Samples.sample_fields 32))
                (Some Samples.chunk_payload_4) (header_reads 0 32)
                [mk_decoded 24 100])).
    + lia.
    + vm_compute. reflexivity.
Defined.

(** C2, the claim as stated fails: in a record with 4 bytes of payload
    (payload from 24 to 28) a first token of 100 bytes moves the offset to
    124, past the end of the payload; the call succeeds all the same, and
    the sizes of the tokens sum to 100, not to 4. *)
Lemma token_past_payload_end_accepted :
  libevtx_event_values_read (Samples.tokens_of_size 100) 1
    (Some zeroed_event_values) (Some tt) (Some Samples.chunk_payload_4) 36 0
  = Some (mk_outcome Success (Some (mk_event_values 32 1 454862250000000))
            (Some Samples.chunk_payload_4) (header_reads 0 32)
            [mk_decoded 24 100]) /\
  payload_offset 0 = 24 /\ payload_length 32 = 4 /\
  24 + 100 > payload_offset 0 + payload_length 32 /\
  total_consumed [mk_decoded 24 100] <> payload_length 32.
Proof.
  split; [vm_compute; reflexivity|].
  split; [reflexivity|]. split; [reflexivity|].
  split; [reflexivity | vm_compute; discriminate].
Qed.

(** C4, as amended: the loop has no check for a token of size 0.  When
    the token read at an offset inside the chunk has size 0, the offset
    stays where it is and the token at the same offset is read again: the
    loop never comes back with success from there; it comes back only if
    creating or freeing a token fails, and when neither ever fails it does
    not come back, whatever the fuel. *)
Theorem zero_size_token_never_succeeds :
  forall (io_handle_t : Type)
         (token_functions : binary_xml_token_functions io_handle_t)
         (io_handle : io_handle_t) (chunk : list byte)
         (chunk_data_size chunk_data_offset : Z)
         (tok : libevtx_binary_xml_token_t)
         (fuel iteration : nat) (s : state),
    chunk_data_size <= SSIZE_MAX ->
    0 <= chunk_data_offset < chunk_data_size ->
    st_chunk_data s = chunk ->
    libevtx_binary_xml_token_read token_functions io_handle chunk
      chunk_data_size chunk_data_offset = Some tok ->
    token_size tok = 0 ->
    (forall final s',
        read_tokens token_functions fuel io_handle chunk_data_size iteration
          chunk_data_offset s <> Some (inr final, s')) /\
    (forall e s',
        read_tokens token_functions fuel io_handle chunk_data_size iteration
          chunk_data_offset s = Some (inl e, s') ->
        e = E_token_create \/ e = E_token_free) /\
    ((forall n, libevtx_binary_xml_token_initialize token_functions n = true) ->
     (forall n, libevtx_binary_xml_token_free token_functions n = true) ->
     read_tokens token_functions fuel io_handle chunk_data_size iteration
       chunk_data_offset s = None).
Proof.
  intros io_handle_t tf io chunk csize off tok fuel iteration s
         Hmax Hoff Hchunk Hread Hzero.
  destruct (read_tokens_no_progress tf io csize chunk tok off Hmax Hoff Hread
              Hzero fuel iteration s Hchunk) as [Hres Hspin].
  split; [|split; [|exact Hspin]].
  - intros final s' Hrun. rewrite Hrun in Hres.
    destruct Hres as [H | H]; discriminate.
  - intros e s' Hrun. rewrite Hrun in Hres.
    destruct Hres as [H | H]; injection H as ->; auto.
Qed.

Lemma zero_size_token_never_succeeds_witness :
  let s := mk_state Samples.chunk_empty_payload (Samples.sample_fields 28)
             (header_reads 0 28) [] in
  (forall final s',
      read_tokens (Samples.tokens_of_size 0) 5 tt 32 0 24 s
      <> Some (inr final, s')) /\
  (forall e s',
      read_tokens (Samples.tokens_of_size 0) 5 tt 32 0 24 s = Some (inl e, s') ->
      e = E_token_create \/ e = E_token_free) /\
  ((forall n, libevtx_binary_xml_token_initialize (Samples.tokens_of_size 0) n
              = true) ->
   (forall n, libevtx_binary_xml_token_free (Samples.tokens_of_size 0) n = true) ->
   read_tokens (Samples.tokens_of_size 0) 5 tt 32 0 24 s = None).
Proof.
  intros s.
  apply (zero_size_token_never_succeeds unit (Samples.tokens_of_size 0) tt
           Samples.chunk_empty_payload 32 24 (mk_token 0) 5 0 s).
  - unfold SSIZE_MAX. lia.
  - lia.
  - reflexivity.
  - reflexivity.
  - reflexivity.
Defined.

(** C4, the claim as stated fails: on a well-formed record and a token
    reader that reports size 0, the call does not come back, whatever the
    number of iterations allowed: it neither fails for want of progress
    nor stops. *)
Lemma zero_size_token_loops_forever :
  ~ exists fuel o,
      libevtx_event_values_read (Samples.tokens_of_size 0) fuel
        (Some zeroed_event_values) (Some tt)
        (Some Samples.chunk_empty_payload) 32 0 = Some o.
Proof.
  intros (fuel & o & Hread).
  rewrite read_non_null in Hread.
  rewrite read_record_accepted in Hread;
    [ | vm_compute; discriminate | reflexivity | vm_compute; discriminate
      | reflexivity | vm_compute; split; discriminate ].
  change (payload_offset 0) with 24 in Hread.
  assert (Hmax : 32 <= SSIZE_MAX) by (vm_compute; discriminate).
  assert (Hoff : 0 <= 24 < 32) by lia.
  pose proof (fun s Hs =>
                proj2 (read_tokens_no_progress (Samples.tokens_of_size 0) tt 32
                         Samples.chunk_empty_payload (mk_token 0) 24
                         Hmax Hoff eq_refl eq_refl fuel 0%nat s Hs)) as Hspin.
  rewrite Hspin in Hread; [discriminate | reflexivity | reflexivity | reflexivity].
Qed.

(** The loop is entered for every record the header part accepts: a
    successful call has read at least one token. *)
Lemma accepted_record_enters_loop (io_handle_t : Type)
    (token_functions : binary_xml_token_functions io_handle_t) fuel
    event_values io_handle chunk_data chunk_data_size chunk_data_offset o :
  0 <= chunk_data_offset ->
  libevtx_event_values_read token_functions fuel event_values io_handle
    chunk_data chunk_data_size chunk_data_offset = Some o ->
  out_result o = Success ->
  out_tokens o <> [].
Proof.
  intros Hoff Hread Hok.
  apply read_outcome_cases in Hread. destruct Hread as [_ Hcases].
  destruct Hcases as [(e & He & _) | Hlate]; [congruence|].
  destruct Hlate as (ev & io & chunk & Hlate). cbv zeta in Hlate.
  destruct Hlate as (_ & _ & _ & H1 & H2 & H3 & _ & _ & _ & Hend).
  destruct Hend as [(Hr & _) | (Hsize & r & s' & Hloop & Hr & Htok)];
    [congruence|].
  destruct r as [e | final]; [congruence|].
  apply read_tokens_inv in Hloop. cbn [st_tokens app] in Hloop.
  destruct Hloop as (_ & _ & _ & tokens & Htokens & _ & _ & _ & Hne).
  rewrite Htok, Htokens. apply Hne.
  rewrite remaining_exact in H3 by lia.
  rewrite (payload_offset_exact chunk_data_size) by lia. lia.
Qed.

(** With tokens of at least one byte that do not wrap the offset around,
    a call comes back when given [chunk_data_size - chunk_data_offset]
    iterations. *)
Lemma read_comes_back (io_handle_t : Type)
    (token_functions : binary_xml_token_functions io_handle_t) fuel
    event_values io_handle chunk_data chunk_data_size chunk_data_offset :
  (forall io chunk off tok,
      off < chunk_data_size ->
      libevtx_binary_xml_token_read token_functions io chunk
        chunk_data_size off = Some tok ->
      1 <= to_size_t (token_size tok) /\
      off + to_size_t (token_size tok) < size_t_modulus) ->
  0 <= chunk_data_offset ->
  chunk_data_size - chunk_data_offset <= Z.of_nat fuel ->
  exists o,
    libevtx_event_values_read token_functions fuel event_values io_handle
      chunk_data chunk_data_size chunk_data_offset = Some o.
Proof.
  intros Hdec Hoff Hfuel.
  destruct event_values as [ev|]; [|eexists; reflexivity].
  destruct io_handle as [io|]; [|eexists; reflexivity].
  destruct chunk_data as [chunk|]; [|eexists; reflexivity].
  rewrite read_non_null. unfold read_record, bind.
  rewrite read_record_header_cases.
  destruct (Z.ltb_spec SSIZE_MAX chunk_data_size); [eexists; reflexivity|].
  destruct (Z.leb_spec chunk_data_size chunk_data_offset); [eexists; reflexivity|].
  destruct (_ <? _); [eexists; reflexivity|].
  destruct (negb _); [eexists; reflexivity|].
  cbv zeta. destruct (_ || _); [eexists; reflexivity|].
  cbn [fst].
  edestruct (read_tokens_terminates token_functions io chunk_data_size
               (Hdec io) fuel 0%nat (payload_offset chunk_data_offset))
    as (r & s' & Hrun & _).
  - rewrite (payload_offset_exact chunk_data_size) by lia.
    unfold sizeof_evtx_event_record_header_t. lia.
  - rewrite (payload_offset_exact chunk_data_size) by lia.
    unfold sizeof_evtx_event_record_header_t. lia.
  - rewrite Hrun. eexists; reflexivity.
Qed.

(** C1, what the code does on a record without payload: for the record of
    size 0x1C (payload length 0) in a chunk of 32 bytes the loop is
    entered at offset 24, where the copy of the size lies: without an
    iteration the call does not come back; with a token reader that fails
    the call fails; with tokens of 4 bytes it succeeds after reading two
    tokens, at offsets 24 and 28. *)
Theorem empty_payload_record_enters_token_loop :
  payload_length 28 = 0 /\
  libevtx_event_values_read (Samples.tokens_of_size 4) 0
    (Some zeroed_event_values) (Some tt)
    (Some Samples.chunk_empty_payload) 32 0 = None /\
  libevtx_event_values_read Samples.no_token 1
    (Some zeroed_event_values) (Some tt)
    (Some Samples.chunk_empty_payload) 32 0
  = Some (mk_outcome (Failure E_token_read)
            (Some (mk_event_values 28 1 454862250000000))
            (Some Samples.chunk_empty_payload) (header_reads 0 28) []) /\
  libevtx_event_values_read (Samples.tokens_of_size 4) 2
    (Some zeroed_event_values) (Some tt)
    (Some Samples.chunk_empty_payload) 32 0
  = Some (mk_outcome Success
            (Some (mk_event_values 28 1 454862250000000))
            (Some Samples.chunk_empty_payload) (header_reads 0 28)
            [mk_decoded 24 4; mk_decoded 28 4]).
Proof.
  repeat split; vm_compute; reflexivity.
Qed.

(** C3, what the code does on a size that is out of bounds: the 4 bytes
    of the copy of the size are read at [record_start + (size - 4)], the
    difference taken in 32 bits, before the size is checked.  For a
    declared size of 0 in a chunk of 32 bytes the read is at offset
    4294967292, for a declared size of 40 in a chunk of 30 bytes at offset
    36; both lie outside the chunk, and the call is rejected only
    afterwards. *)
Theorem size_copy_read_before_bounds_check :
  libevtx_event_values_read (Samples.tokens_of_size 4) 0
    (Some zeroed_event_values) (Some tt) (Some Samples.chunk_size_0) 32 0
  = Some (mk_outcome (Failure E_size_out_of_bounds)
            (Some (mk_event_values 0 1 454862250000000))
            (Some Samples.chunk_size_0)
            [mk_access 4294967292 4; mk_access 16 8; mk_access 8 8;
             mk_access 4 4; mk_access 0 4] []) /\
  in_buffer 32 (mk_access 4294967292 4) = false /\
  libevtx_event_values_read (Samples.tokens_of_size 4) 0
    (Some zeroed_event_values) (Some tt) (Some Samples.chunk_size_40) 30 0
  = Some (mk_outcome (Failure E_size_out_of_bounds)
            (Some (mk_event_values 40 1 454862250000000))
            (Some Samples.chunk_size_40)
            [mk_access 36 4; mk_access 16 8; mk_access 8 8;
             mk_access 4 4; mk_access 0 4] []) /\
  in_buffer 30 (mk_access 36 4) = false /\
  kind_of E_size_out_of_bounds = OutOfBounds.
Proof.
  repeat split; vm_compute; reflexivity.
Qed.

(** C5, what the code does with tokens of one byte: for the record of
    size 0x1C (payload length 0) in a chunk of 32 bytes the loop makes 8
    iterations, from offset 24 to the end of the chunk; 7 iterations are
    not enough for the call to come back. *)
Theorem token_loop_runs_to_end_of_chunk :
  payload_length 28 = 0 /\
  libevtx_event_values_read (Samples.tokens_of_size 1) 7
    (Some zeroed_event_values) (Some tt)
    (Some Samples.chunk_empty_payload) 32 0 = None /\
  libevtx_event_values_read (Samples.tokens_of_size 1) 8
    (Some zeroed_event_values) (Some tt)
    (Some Samples.chunk_empty_payload) 32 0
  = Some (mk_outcome Success
            (Some (mk_event_values 28 1 454862250000000))
            (Some Samples.chunk_empty_payload) (header_reads 0 28)
            [mk_decoded 24 1; mk_decoded 25 1; mk_decoded 26 1;
             mk_decoded 27 1; mk_decoded 28 1; mk_decoded 29 1;
             mk_decoded 30 1; mk_decoded 31 1]).
Proof.
  repeat split; vm_compute; reflexivity.
Qed.

(** * Further properties of the three functions *)

(** ** libevtx_event_values_initialize and libevtx_event_values_free *)

(** [libevtx_event_values_initialize] succeeds exactly when the handle is
    not NULL, its target is NULL and both the allocation and the clearing
    succeed; the target then points to a zeroed structure, the one
    structure allocated.  On every failure the handle is as before the
    call and every structure allocated has been released: a target that
    was set is not overwritten, and a structure that could not be cleared
    has been released by [memory_free] and the target is NULL again.
    Result and handle are those of [libevtx_event_values_initialize]. *)
Theorem initialize_succeeds_only_on_null_target :
  forall (alloc_ok set_ok : bool) (event_values : event_values_handle),
    let out := libevtx_event_values_initialize_memory alloc_ok set_ok
                 event_values in
    (init_result out, init_handle out)
    = libevtx_event_values_initialize alloc_ok set_ok event_values /\
    (init_result out = Success
     <-> event_values = Some None /\ alloc_ok = true /\ set_ok = true) /\
    (init_result out = Success ->
     init_handle out = Some (Some zeroed_event_values) /\
     init_allocated out = 1%nat /\ init_released out = 0%nat) /\
    (init_result out <> Success ->
     init_handle out = event_values /\
     init_released out = init_allocated out) /\
    (init_result out = Failure E_unable_to_clear ->
     init_allocated out = 1%nat /\ init_released out = 1%nat /\
     init_handle out = Some None).
Proof.
  intros alloc_ok set_ok [[v|]|]; destruct alloc_ok, set_ok; cbn;
    repeat split; try reflexivity; try discriminate; try tauto;
    try (intros (H1 & H2 & H3); discriminate);
    try (intros H; exfalso; apply H; reflexivity).
Qed.

(** Initialize and free compose: a structure that was just initialized is
    released by one call of [libevtx_event_values_free], with exactly one
    [memory_free]; a handle that is initialized cannot be initialized
    again (VALUE_ALREADY_SET, target kept), whatever it holds; after a
    free, whatever the target was, the handle can be initialized anew. *)
Theorem initialize_free_lifecycle :
  forall (alloc_ok set_ok : bool) (v : libevtx_event_values_t)
         (target : option libevtx_event_values_t),
    libevtx_event_values_free
      (snd (libevtx_event_values_initialize true true (Some None)))
    = (Success, Some None, 1%nat) /\
    libevtx_event_values_initialize alloc_ok set_ok (Some (Some v))
    = (Failure E_value_already_set, Some (Some v)) /\
    libevtx_event_values_initialize true true
      (snd (fst (libevtx_event_values_free (Some target))))
    = (Success, Some (Some zeroed_event_values)) /\
    snd (libevtx_event_values_free (Some target))
    = match target with Some _ => 1%nat | None => 0%nat end.
Proof.
  intros alloc_ok set_ok v [t|]; repeat split; reflexivity.
Qed.

(** ** libevtx_event_values_read: the checks on the arguments *)

(** A NULL argument is an invalid-argument error, whatever the other
    arguments are: nothing is read from the chunk, no token is read, and
    the event values are as they were. *)
Theorem null_argument_rejected :
  forall (io_handle_t : Type)
         (token_functions : binary_xml_token_functions io_handle_t)
         (fuel : nat) (event_values : option libevtx_event_values_t)
         (io_handle : option io_handle_t) (chunk_data : option (list byte))
         (chunk_data_size chunk_data_offset : Z),
    event_values = None \/ io_handle = None \/ chunk_data = None ->
    exists e,
      libevtx_event_values_read token_functions fuel event_values io_handle
        chunk_data chunk_data_size chunk_data_offset
      = Some (mk_outcome (Failure e) event_values chunk_data [] []) /\
      error_code e = LIBERROR_ARGUMENT_ERROR_INVALID_VALUE /\
      kind_of e = InvalidArgument.
Proof.
  intros io_handle_t tf fuel evo ioo co csize coff Hnull.
  destruct evo as [ev|]; [|eexists; repeat split].
  destruct ioo as [io|]; [|eexists; repeat split].
  destruct co as [chunk|]; [|eexists; repeat split].
  destruct Hnull as [H | [H | H]]; discriminate.
Qed.

Lemma null_argument_rejected_witness :
  exists e,
    libevtx_event_values_read (Samples.tokens_of_size 4) 2
      (Some zeroed_event_values) (@None unit)
      (Some Samples.chunk_empty_payload) 32 0
    = Some (mk_outcome (Failure e) (Some zeroed_event_values)
              (Some Samples.chunk_empty_payload) [] []) /\
    error_code e = LIBERROR_ARGUMENT_ERROR_INVALID_VALUE /\
    kind_of e = InvalidArgument.
Proof.
  apply (null_argument_rejected unit (Samples.tokens_of_size 4) 2
           (Some zeroed_event_values) None
           (Some Samples.chunk_empty_payload) 32 0).
  right. left. reflexivity.
Defined.

(** A chunk size above SSIZE_MAX is rejected before anything else is
    looked at: the offset and the bytes of the chunk do not matter, and
    nothing is read. *)
Theorem chunk_size_above_maximum_rejected :
  forall (io_handle_t : Type)
         (token_functions : binary_xml_token_functions io_handle_t)
         (fuel : nat) (ev : libevtx_event_values_t) (io : io_handle_t)
         (chunk : list byte) (chunk_data_size chunk_data_offset : Z),
    SSIZE_MAX < chunk_data_size ->
    libevtx_event_values_read token_functions fuel (Some ev) (Some io)
      (Some chunk) chunk_data_size chunk_data_offset
    = Some (mk_outcome (Failure E_size_exceeds_maximum) (Some ev) (Some chunk)
              [] []).
Proof.
  intros io_handle_t tf fuel ev io chunk csize coff H.
  rewrite read_non_null. unfold read_record, bind.
  rewrite read_record_header_cases.
  rewrite (proj2 (Z.ltb_lt _ _) H). reflexivity.
Qed.

Lemma chunk_size_above_maximum_rejected_witness :
  libevtx_event_values_read (Samples.tokens_of_size 4) 2
    (Some zeroed_event_values) (Some tt)
    (Some Samples.chunk_empty_payload) (2 ^ 63) 0
  = Some (mk_outcome (Failure E_size_exceeds_maximum)
            (Some zeroed_event_values) (Some Samples.chunk_empty_payload)
            [] []).
Proof.
  apply (chunk_size_above_maximum_rejected unit (Samples.tokens_of_size 4) 2
           zeroed_event_values tt Samples.chunk_empty_payload (2 ^ 63) 0).
  vm_compute. reflexivity.
Defined.

(** An offset at or past the end of the chunk is an out-of-bounds
    argument error; in particular an empty chunk is rejected at every
    offset.  Nothing is read. *)
Theorem offset_out_of_bounds_rejected :
  forall (io_handle_t : Type)
         (token_functions : binary_xml_token_functions io_handle_t)
         (fuel : nat) (ev : libevtx_event_values_t) (io : io_handle_t)
         (chunk : list byte) (chunk_data_size chunk_data_offset : Z),
    chunk_data_size <= SSIZE_MAX ->
    chunk_data_size <= chunk_data_offset ->
    libevtx_event_values_read token_functions fuel (Some ev) (Some io)
      (Some chunk) chunk_data_size chunk_data_offset
    = Some (mk_outcome (Failure E_offset_out_of_bounds) (Some ev) (Some chunk)
              [] []) /\
    kind_of E_offset_out_of_bounds = OutOfBounds.
Proof.
  intros io_handle_t tf fuel ev io chunk csize coff H1 H2.
  split; [|reflexivity].
  rewrite read_non_null. unfold read_record, bind.
  rewrite read_record_header_cases.
  rewrite (proj2 (Z.ltb_ge _ _) H1), (proj2 (Z.leb_le _ _) H2). reflexivity.
Qed.

Lemma offset_out_of_bounds_rejected_witness :
  libevtx_event_values_read (Samples.tokens_of_size 4) 2
    (Some zeroed_event_values) (Some tt) (Some []) 0 0
  = Some (mk_outcome (Failure E_offset_out_of_bounds)
            (Some zeroed_event_values) (Some []) [] []) /\
  kind_of E_offset_out_of_bounds = OutOfBounds.
Proof.
  apply (offset_out_of_bounds_rejected unit (Samples.tokens_of_size 4) 2
           zeroed_event_values tt [] 0 0).
  - vm_compute. discriminate.
  - lia.
Defined.

(** When fewer than 28 bytes (the header and 4 more) remain from the
    offset to the end of the chunk, the call is rejected as too small,
    without a look at the signature: nothing is read. *)
Theorem record_too_small_rejected :
  forall (io_handle_t : Type)
         (token_functions : binary_xml_token_functions io_handle_t)
         (fuel : nat) (ev : libevtx_event_values_t) (io : io_handle_t)
         (chunk : list byte) (chunk_data_size chunk_data_offset : Z),
    chunk_data_size <= SSIZE_MAX ->
    0 <= chunk_data_offset < chunk_data_size ->
    chunk_data_size - chunk_data_offset < sizeof_evtx_event_record_header_t + 4 ->
    libevtx_event_values_read token_functions fuel (Some ev) (Some io)
      (Some chunk) chunk_data_size chunk_data_offset
    = Some (mk_outcome (Failure E_size_too_small) (Some ev) (Some chunk) [] []) /\
    kind_of E_size_too_small = TooSmall.
Proof.
  intros io_handle_t tf fuel ev io chunk csize coff H1 H2 H3.
  split; [|reflexivity].
  rewrite read_non_null. unfold read_record, bind.
  rewrite read_record_header_cases.
  rewrite (proj2 (Z.ltb_ge _ _) H1), (proj2 (Z.leb_gt _ _) (proj2 H2)).
  rewrite remaining_exact by assumption.
  rewrite (proj2 (Z.ltb_lt _ _) H3). reflexivity.
Qed.

Lemma record_too_small_rejected_witness :
  libevtx_event_values_read (Samples.tokens_of_size 4) 2
    (Some zeroed_event_values) (Some tt)
    (Some (firstn 10 Samples.chunk_empty_payload)) 10 0
  = Some (mk_outcome (Failure E_size_too_small) (Some zeroed_event_values)
            (Some (firstn 10 Samples.chunk_empty_payload)) [] []) /\
  kind_of E_size_too_small = TooSmall.
Proof.
  apply (record_too_small_rejected unit (Samples.tokens_of_size 4) 2
           zeroed_event_values tt (firstn 10 Samples.chunk_empty_payload) 10 0).
  - vm_compute. discriminate.
  - lia.
  - vm_compute. reflexivity.
Defined.

(** ** libevtx_event_values_read: the size of the record *)

(** The five reads of the header part lie inside the chunk when the
    checks before the signature pass and the copy of the size does. *)
Lemma header_reads_inside chunk chunk_data_size chunk_data_offset :
  chunk_data_size <= SSIZE_MAX ->
  0 <= chunk_data_offset < chunk_data_size ->
  sizeof_evtx_event_record_header_t + 4 <= chunk_data_size - chunk_data_offset ->
  size_copy_inside chunk_data_size chunk_data_offset chunk = true ->
  reads_inside chunk_data_size
    (header_reads chunk_data_offset
       (size (header_fields chunk chunk_data_offset))) = true.
Proof.
  intros H1 H2 H3 Hcopy. unfold size_copy_inside in Hcopy.
  unfold reads_inside, header_reads. cbn [forallb]. rewrite Hcopy.
  unfold in_buffer, offsetof_signature, offsetof_size, offsetof_identifier,
    offsetof_creation_time; cbn [acc_offset acc_length].
  unfold sizeof_evtx_event_record_header_t in *.
  repeat (apply andb_true_iff; split); try reflexivity; apply Z.leb_le; lia.
Qed.

(** Once the signature has been accepted, a declared size below 24 or
    above what remains of the chunk less 4, and such that the copy of the
    size the reader looks at first lies inside the chunk (as it does for
    the sizes 4 to 23 and for the 4 sizes from 3 below what remains up to
    what remains), is rejected as out of bounds, whatever the token
    reader and the fuel:
    every read made lies inside the chunk, no token is read, and the event
    values hold the header fields of the rejected record. *)
Theorem declared_size_out_of_bounds_rejected :
  forall (io_handle_t : Type)
         (token_functions : binary_xml_token_functions io_handle_t)
         (fuel : nat) (ev : libevtx_event_values_t) (io : io_handle_t)
         (chunk : list byte) (chunk_data_size chunk_data_offset : Z),
    chunk_data_size <= SSIZE_MAX ->
    0 <= chunk_data_offset < chunk_data_size ->
    sizeof_evtx_event_record_header_t + 4 <= chunk_data_size - chunk_data_offset ->
    bytes_at chunk chunk_data_offset 4 = evtx_event_record_signature ->
    size_copy_inside chunk_data_size chunk_data_offset chunk = true ->
    size (header_fields chunk chunk_data_offset) < sizeof_evtx_event_record_header_t \/
    chunk_data_size - chunk_data_offset - 4
    < size (header_fields chunk chunk_data_offset) ->
    exists o,
      libevtx_event_values_read token_functions fuel (Some ev) (Some io)
        (Some chunk) chunk_data_size chunk_data_offset = Some o /\
      out_result o = Failure E_size_out_of_bounds /\
      kind_of E_size_out_of_bounds = OutOfBounds /\
      reads_inside chunk_data_size (out_reads o) = true /\
      out_tokens o = [] /\
      out_event_values o = Some (header_fields chunk chunk_data_offset).
Proof.
  intros io_handle_t tf fuel ev io chunk csize coff H1 H2 H3 H4 Hcopy H5.
  eexists. split.
  - apply size_out_of_bounds_rejected.
    + exact H1.
    + lia.
    + rewrite remaining_exact by assumption. exact H3.
    + unfold offsetof_signature. rewrite Z.add_0_r. exact H4.
    + rewrite remaining_exact by assumption. exact H5.
  - cbn [out_result out_reads out_tokens out_event_values].
    repeat split. apply header_reads_inside; assumption.
Qed.

Lemma declared_size_out_of_bounds_rejected_witness :
  exists o,
    libevtx_event_values_read (Samples.tokens_of_size 4) 2
      (Some zeroed_event_values) (Some tt) (Some chunk_size_30) 32 0
    = Some o /\
    out_result o = Failure E_size_out_of_bounds /\
    kind_of E_size_out_of_bounds = OutOfBounds /\
    reads_inside 32 (out_reads o) = true /\
    out_tokens o = [] /\
    out_event_values o = Some (header_fields chunk_size_30 0).
Proof.
  apply (declared_size_out_of_bounds_rejected unit (Samples.tokens_of_size 4) 2
           zeroed_event_values tt chunk_size_30 32 0).
  - vm_compute. discriminate.
  - lia.
  - vm_compute. discriminate.
  - vm_compute. reflexivity.
  - vm_compute. reflexivity.
  - right. vm_compute. reflexivity.
Defined.

(** On every successful call the record starts with the signature 2A 2A
    00 00, and the size stored in the event values is at least 24 and at
    most what remains of the chunk less 4: the record, as declared, lies
    inside the chunk with at least 4 bytes after it. *)
Theorem successful_read_record_fits_chunk :
  forall (io_handle_t : Type)
         (token_functions : binary_xml_token_functions io_handle_t)
         (fuel : nat) (event_values : option libevtx_event_values_t)
         (io_handle : option io_handle_t) (chunk_data : option (list byte))
         (chunk_data_size chunk_data_offset : Z) (o : outcome),
    0 <= chunk_data_offset ->
    libevtx_event_values_read token_functions fuel event_values io_handle
      chunk_data chunk_data_size chunk_data_offset = Some o ->
    out_result o = Success ->
    exists chunk ev,
      chunk_data = Some chunk /\ out_event_values o = Some ev /\
      bytes_at chunk chunk_data_offset 4 = [x2a; x2a; x00; x00] /\
      sizeof_evtx_event_record_header_t <= size ev /\
      chunk_data_offset + size ev + 4 <= chunk_data_size /\
      chunk_data_size <= SSIZE_MAX.
Proof.
  intros io_handle_t tf fuel evo ioo co csize coff o Hoff Hread Hok.
  apply read_outcome_cases in Hread. destruct Hread as [_ Hcases].
  destruct Hcases as [(e & He & _) | Hlate]; [congruence|].
  destruct Hlate as (ev & io & chunk & Hlate). cbv zeta in Hlate.
  destruct Hlate as (_ & _ & -> & H1 & H2 & H3 & H4 & Hev & _ & Hend).
  destruct Hend as [(Hr & _) | (Hsize & _)]; [congruence|].
  rewrite remaining_exact in Hsize by lia.
  unfold offsetof_signature in H4. rewrite Z.add_0_r in H4.
  exists chunk, (header_fields chunk coff).
  repeat split; try assumption; lia.
Qed.

Lemma successful_read_record_fits_chunk_witness :
  exists chunk ev,
    Some Samples.chunk_payload_4 = Some chunk /\
    Some (Samples.sample_fields 32) = Some ev /\
    bytes_at chunk 0 4 = [x2a; x2a; x00; x00] /\
    sizeof_evtx_event_record_header_t <= size ev /\
    0 + size ev + 4 <= 36 /\
    36 <= SSIZE_MAX.
Proof.
  apply (successful_read_record_fits_chunk unit (Samples.tokens_of_size 100) 1
           (Some zeroed_event_values) (Some tt) (Some Samples.chunk_payload_4)
           36 0
           (mk_outcome Success (Some (Samples.sample_fields 32))
              (Some Samples.chunk_payload_4) (header_reads 0 32)
              [mk_decoded 24 100])).
  - lia.
  - vm_compute. reflexivity.
  - reflexivity.
Defined.

(** ** libevtx_event_values_read: the reads of the chunk *)

(** The reads of a call that comes back: none, the signature alone, or
    the signature, the three fields and the copy of the size. *)
Lemma read_reads_cases (io_handle_t : Type)
    (token_functions : binary_xml_token_functions io_handle_t) fuel
    event_values io_handle chunk_data chunk_data_size chunk_data_offset o :
  libevtx_event_values_read token_functions fuel event_values io_handle
    chunk_data chunk_data_size chunk_data_offset = Some o ->
  out_reads o = [] \/
  (chunk_data_size <= SSIZE_MAX /\
   chunk_data_offset < chunk_data_size /\
   sizeof_evtx_event_record_header_t + 4
   <= to_size_t (chunk_data_size - chunk_data_offset) /\
   (out_reads o = [mk_access (chunk_data_offset + offsetof_signature) 4] \/
    exists chunk,
      chunk_data = Some chunk /\
      bytes_at chunk (chunk_data_offset + offsetof_signature) 4
      = evtx_event_record_signature /\
      out_reads o
      = header_reads chunk_data_offset
          (size (header_fields chunk chunk_data_offset)) /\
      (out_result o = Failure E_size_out_of_bounds \/
       sizeof_evtx_event_record_header_t
       <= size (header_fields chunk chunk_data_offset)
       <= to_size_t (chunk_data_size - chunk_data_offset) - 4))).
Proof.
  intros Hread.
  destruct event_values as [ev|]; [|injection Hread as <-; left; reflexivity].
  destruct io_handle as [io|]; [|injection Hread as <-; left; reflexivity].
  destruct chunk_data as [chunk|]; [|injection Hread as <-; left; reflexivity].
  rewrite read_non_null in Hread. unfold read_record, bind in Hread.
  rewrite read_record_header_cases in Hread.
  cbn [st_chunk_data st_event_values st_reads st_tokens] in Hread.
  destruct (Z.ltb_spec SSIZE_MAX chunk_data_size) as [H1 | H1];
    [injection Hread as <-; left; reflexivity|].
  destruct (Z.leb_spec chunk_data_size chunk_data_offset) as [H2 | H2];
    [injection Hread as <-; left; reflexivity|].
  destruct (Z.ltb_spec (to_size_t (chunk_data_size - chunk_data_offset))
              (sizeof_evtx_event_record_header_t + 4)) as [H3 | H3];
    [injection Hread as <-; left; reflexivity|].
  right. repeat (split; [assumption|]).
  destruct (Z.eqb_spec
              (memory_compare
                 (bytes_at chunk (chunk_data_offset + offsetof_signature) 4)
                 evtx_event_record_signature 4) 0) as [H4 | H4];
    cbn [negb] in Hread;
    [|injection Hread as <-; left; reflexivity].
  apply memory_compare_eq in H4; [|apply length_bytes_at | reflexivity].
  right. exists chunk. split; [reflexivity|]. split; [exact H4|].
  cbv zeta in Hread. rewrite app_nil_r in Hread.
  destruct (Z.ltb_spec (size (header_fields chunk chunk_data_offset))
              sizeof_evtx_event_record_header_t) as [H5 | H5]; cbn [orb] in Hread.
  { injection Hread as <-. split; [reflexivity | left; reflexivity]. }
  destruct (Z.ltb_spec (to_size_t (chunk_data_size - chunk_data_offset) - 4)
              (size (header_fields chunk chunk_data_offset))) as [H6 | H6].
  { injection Hread as <-. split; [reflexivity | left; reflexivity]. }
  cbn [fst] in Hread.
  destruct (read_tokens _ _ _ _ _ _ _) as [[r s']|] eqn:Hloop; [|discriminate].
  injection Hread as <-. cbn [out_reads out_result].
  apply read_tokens_inv in Hloop. destruct Hloop as (_ & _ & Hr & _).
  split; [exact Hr | right; lia].
Qed.

(** In the function as built without tracing (no HAVE_DEBUG_OUTPUT),
    unless the call is rejected for a size out of bounds, every read of
    the chunk the function itself makes lies inside the chunk: the
    signature and the three fields always do, and so does the copy of the
    size of every record that passes the check of the size.  The reads of
    the token reader are not covered. *)
Theorem reads_inside_chunk_unless_size_rejected :
  forall (io_handle_t : Type)
         (token_functions : binary_xml_token_functions io_handle_t)
         (fuel : nat) (event_values : option libevtx_event_values_t)
         (io_handle : option io_handle_t) (chunk_data : option (list byte))
         (chunk_data_size chunk_data_offset : Z) (o : outcome),
    0 <= chunk_data_offset ->
    libevtx_event_values_read token_functions fuel event_values io_handle
      chunk_data chunk_data_size chunk_data_offset = Some o ->
    reads_inside chunk_data_size (tl (out_reads o)) = true /\
    (out_result o <> Failure E_size_out_of_bounds ->
     reads_inside chunk_data_size (out_reads o) = true).
Proof.
  intros io_handle_t tf fuel evo ioo co csize coff o Hoff Hread.
  apply read_reads_cases in Hread.
  destruct Hread as [-> | (H1 & H2 & H3 & [-> | (chunk & _ & _ & -> & Hsize)])].
  - split; reflexivity.
  - rewrite remaining_exact in H3 by lia. split; [reflexivity|]. intros _.
    unfold reads_inside, in_buffer, offsetof_signature; cbn [forallb acc_offset acc_length].
    rewrite andb_true_r. apply andb_true_iff.
    split; [apply Z.leb_le | apply Z.leb_le];
      unfold sizeof_evtx_event_record_header_t in *; lia.
  - rewrite remaining_exact in H3, Hsize by lia.
    assert (Hfields : reads_inside csize
                        (tl (header_reads coff (size (header_fields chunk coff))))
                      = true).
    { unfold reads_inside, header_reads, in_buffer, offsetof_signature,
        offsetof_size, offsetof_identifier, offsetof_creation_time;
        cbn [tl forallb acc_offset acc_length].
      unfold sizeof_evtx_event_record_header_t in *.
      repeat (apply andb_true_iff; split); try reflexivity; apply Z.leb_le; lia. }
    split; [exact Hfields|]. intros Hnot.
    destruct Hsize as [Hbad | Hsize]; [contradiction|].
    set (sz := size (header_fields chunk coff)) in *.
    pose proof (to_uint32_range (sz - 4)) as Hlow.
    assert (Hhigh : to_uint32 (sz - 4) <= sz - 4).
    { apply Z.mod_le; [|reflexivity].
      unfold sizeof_evtx_event_record_header_t in *. lia. }
    unfold reads_inside, header_reads, in_buffer, offsetof_signature,
      offsetof_size, offsetof_identifier, offsetof_creation_time;
      cbn [forallb acc_offset acc_length].
    unfold sizeof_evtx_event_record_header_t in *.
    repeat (apply andb_true_iff; split); try reflexivity; apply Z.leb_le; lia.
Qed.

Lemma reads_inside_chunk_unless_size_rejected_witness :
  reads_inside 36 (tl (header_reads 0 32)) = true /\
  (Success <> Failure E_size_out_of_bounds ->
   reads_inside 36 (header_reads 0 32) = true).
Proof.
  apply (reads_inside_chunk_unless_size_rejected unit
           (Samples.tokens_of_size 100) 1
           (Some zeroed_event_values) (Some tt) (Some Samples.chunk_payload_4)
           36 0
           (mk_outcome Success (Some (Samples.sample_fields 32))
              (Some Samples.chunk_payload_4) (header_reads 0 32)
              [mk_decoded 24 100])).
  - lia.
  - vm_compute. reflexivity.
Defined.





(** ** libevtx_event_values_read: the tokens *)

Section TokenTrace.

Context {io_handle_t : Type}.
Variable token_functions : binary_xml_token_functions io_handle_t.
Variable io_handle : io_handle_t.
Variable chunk_data_size : Z.

(** The tokens of a loop that comes back: read one after the other from
    the start, each at an offset inside the chunk; without an error the
    loop is left at the offset after the last token. *)
Lemma read_tokens_trace fuel : forall iteration chunk_data_offset s r s',
  0 <= chunk_data_offset ->
  read_tokens token_functions fuel io_handle chunk_data_size iteration
    chunk_data_offset s = Some (r, s') ->
  exists tokens,
    st_tokens s' = st_tokens s ++ tokens /\
    tokens_chained chunk_data_offset tokens = true /\
    tokens_inside chunk_data_size tokens = true /\
    (forall final, r = inr final ->
                   final = offset_after chunk_data_offset tokens).
Proof.
  induction fuel as [|fuel IH]; intros iteration off s r s' Hoff Hrun.
  - destruct (Z.lt_ge_cases off chunk_data_size) as [Hlt | Hge].
    + rewrite read_tokens_out_of_fuel in Hrun by exact Hlt. discriminate.
    + rewrite read_tokens_done in Hrun by exact Hge.
      injection Hrun as <- <-. exists []. rewrite app_nil_r.
      repeat split. intros final H; injection H as <-; reflexivity.
  - destruct (Z.lt_ge_cases off chunk_data_size) as [Hlt | Hge].
    2:{ rewrite read_tokens_done in Hrun by exact Hge.
        injection Hrun as <- <-. exists []. rewrite app_nil_r.
        repeat split. intros final H; injection H as <-; reflexivity. }
    rewrite read_tokens_step in Hrun by exact Hlt.
    destruct (negb (libevtx_binary_xml_token_initialize token_functions iteration)).
    { injection Hrun as <- <-. exists []. rewrite app_nil_r.
      repeat split. intros final H; discriminate. }
    destruct (libevtx_binary_xml_token_read token_functions io_handle
                (st_chunk_data s) chunk_data_size off) as [tok|].
    2:{ injection Hrun as <- <-. exists []. rewrite app_nil_r.
        repeat split. intros final H; discriminate. }
    cbv zeta in Hrun.
    assert (Hhere : (0 <=? off) && (off <? chunk_data_size) = true).
    { apply andb_true_iff; split; [apply Z.leb_le | apply Z.ltb_lt]; lia. }
    destruct (negb (libevtx_binary_xml_token_free token_functions iteration)).
    { injection Hrun as <- <-. cbn [st_tokens].
      exists [mk_decoded off (to_size_t (token_size tok))].
      split; [reflexivity|].
      cbn [tokens_chained tokens_inside forallb tok_offset consumed_bytes].
      rewrite Z.eqb_refl, Hhere. repeat split. intros final H; discriminate. }
    apply IH in Hrun; [|apply to_size_t_range].
    cbn [st_tokens] in Hrun.
    destruct Hrun as (tokens & Ht & Hchain & Hin & Hfinal).
    exists (mk_decoded off (to_size_t (token_size tok)) :: tokens).
    split; [rewrite Ht, <- app_assoc; reflexivity|].
    cbn [tokens_chained tokens_inside forallb tok_offset consumed_bytes].
    rewrite Z.eqb_refl, Hhere, Hchain. fold (tokens_inside chunk_data_size tokens).
    rewrite Hin. repeat split. exact Hfinal.
Qed.

End TokenTrace.

(** The tokens of a call that comes back were read one after the other
    from the end of the header on, each where the one before it ended
    (the sum taken in [size_t]), and each at an offset inside the chunk:
    the token reader is never called at or past the end of the chunk.  A
    successful call has left the loop at the offset after the last token,
    and that offset is not below the size of the chunk. *)
Theorem tokens_read_in_sequence_inside_chunk :
  forall (io_handle_t : Type)
         (token_functions : binary_xml_token_functions io_handle_t)
         (fuel : nat) (event_values : option libevtx_event_values_t)
         (io_handle : option io_handle_t) (chunk_data : option (list byte))
         (chunk_data_size chunk_data_offset : Z) (o : outcome),
    0 <= chunk_data_offset ->
    libevtx_event_values_read token_functions fuel event_values io_handle
      chunk_data chunk_data_size chunk_data_offset = Some o ->
    tokens_chained (chunk_data_offset + sizeof_evtx_event_record_header_t)
      (out_tokens o) = true /\
    tokens_inside chunk_data_size (out_tokens o) = true /\
    (out_result o = Success ->
     chunk_data_size
     <= offset_after (chunk_data_offset + sizeof_evtx_event_record_header_t)
          (out_tokens o)).
Proof.
  intros io_handle_t tf fuel evo ioo co csize coff o Hoff Hread.
  apply read_outcome_cases in Hread. destruct Hread as [_ Hcases].
  destruct Hcases as [(e & He & _ & _ & ->) | Hlate].
  { repeat split. intros H; congruence. }
  destruct Hlate as (ev & io & chunk & Hlate). cbv zeta in Hlate.
  destruct Hlate as (_ & _ & _ & H1 & H2 & H3 & _ & _ & _ & Hend).
  destruct Hend as [(Hr & -> & _) | (_ & r & s' & Hloop & Hr & ->)].
  { repeat split. intros H; congruence. }
  rewrite (payload_offset_exact csize) in Hloop by lia.
  pose proof (read_tokens_inv _ _ _ _ _ _ _ _ _ Hloop) as (_ & _ & _ & Hinv).
  apply read_tokens_trace in Hloop;
    [|unfold sizeof_evtx_event_record_header_t; lia].
  cbn [st_tokens app] in Hloop, Hinv.
  destruct Hloop as (tokens & -> & Hchain & Hin & Hfinal).
  split; [exact Hchain|]. split; [exact Hin|].
  intros Hok. destruct r as [e | final]; [congruence|].
  destruct Hinv as (tokens' & Heq & _ & Hge & _).
  rewrite <- (Hfinal final eq_refl). exact Hge.
Qed.

Lemma tokens_read_in_sequence_inside_chunk_witness :
  tokens_chained (0 + sizeof_evtx_event_record_header_t)
    [mk_decoded 24 4; mk_decoded 28 4] = true /\
  tokens_inside 32 [mk_decoded 24 4; mk_decoded 28 4] = true /\
  (Success = Success ->
   32 <= offset_after (0 + sizeof_evtx_event_record_header_t)
           [mk_decoded 24 4; mk_decoded 28 4]).
Proof.
  apply (tokens_read_in_sequence_inside_chunk unit (Samples.tokens_of_size 4) 2
           (Some zeroed_event_values) (Some tt)
           (Some Samples.chunk_empty_payload) 32 0
           (mk_outcome Success (Some (Samples.sample_fields 28))
              (Some Samples.chunk_empty_payload) (header_reads 0 28)
              [mk_decoded 24 4; mk_decoded 28 4])).
  - lia.
  - vm_compute. reflexivity.
Defined.

(** When the copy of the size the header part looks at lies inside the
    chunk, and every token the reader yields inside the chunk has at
    least one byte and does not wrap the offset around, a call comes back
    as soon as it is allowed [chunk_data_size - chunk_data_offset - 24]
    iterations; it has read at most that many tokens, and every read of
    the chunk the function itself has made lies inside the chunk. *)
Theorem read_terminates_within_rest_of_chunk :
  forall (io_handle_t : Type)
         (token_functions : binary_xml_token_functions io_handle_t)
         (fuel : nat) (event_values : option libevtx_event_values_t)
         (io_handle : option io_handle_t) (chunk_data : option (list byte))
         (chunk_data_size chunk_data_offset : Z),
    (forall chunk,
        chunk_data = Some chunk ->
        chunk_data_size <= SSIZE_MAX ->
        chunk_data_offset < chunk_data_size ->
        sizeof_evtx_event_record_header_t + 4
        <= chunk_data_size - chunk_data_offset ->
        bytes_at chunk chunk_data_offset 4 = evtx_event_record_signature ->
        size_copy_inside chunk_data_size chunk_data_offset chunk = true) ->
    (forall io chunk off tok,
        off < chunk_data_size ->
        libevtx_binary_xml_token_read token_functions io chunk
          chunk_data_size off = Some tok ->
        1 <= to_size_t (token_size tok) /\
        off + to_size_t (token_size tok) < size_t_modulus) ->
    0 <= chunk_data_offset ->
    chunk_data_size - chunk_data_offset - sizeof_evtx_event_record_header_t
    <= Z.of_nat fuel ->
    exists o,
      libevtx_event_values_read token_functions fuel event_values io_handle
        chunk_data chunk_data_size chunk_data_offset = Some o /\
      Z.of_nat (List.length (out_tokens o))
      <= Z.max 0 (chunk_data_size - chunk_data_offset
                  - sizeof_evtx_event_record_header_t) /\
      reads_inside chunk_data_size (out_reads o) = true.
Proof.
  intros io_handle_t tf fuel evo ioo co csize coff Hcopy Hdec Hoff Hfuel.
  assert (Hreturns :
            exists o,
              libevtx_event_values_read tf fuel evo ioo co csize coff = Some o /\
              Z.of_nat (List.length (out_tokens o))
              <= Z.max 0 (csize - coff - sizeof_evtx_event_record_header_t)).
  { destruct evo as [ev|]; [|eexists; split; [reflexivity | cbn; lia]].
    destruct ioo as [io|]; [|eexists; split; [reflexivity | cbn; lia]].
    destruct co as [chunk|]; [|eexists; split; [reflexivity | cbn; lia]].
    rewrite read_non_null. unfold read_record, bind.
    rewrite read_record_header_cases.
    destruct (Z.ltb_spec SSIZE_MAX csize);
      [eexists; split; [reflexivity | cbn; lia]|].
    destruct (Z.leb_spec csize coff);
      [eexists; split; [reflexivity | cbn; lia]|].
    destruct (_ <? _); [eexists; split; [reflexivity | cbn; lia]|].
    destruct (negb _); [eexists; split; [reflexivity | cbn; lia]|].
    cbv zeta. destruct (_ || _); [eexists; split; [reflexivity | cbn; lia]|].
    cbn [fst]. rewrite (payload_offset_exact csize) by lia.
    edestruct (read_tokens_terminates tf io csize (Hdec io) fuel 0%nat
                 (coff + sizeof_evtx_event_record_header_t))
      as (r & s' & Hrun & Hlen).
    - unfold sizeof_evtx_event_record_header_t. lia.
    - lia.
    - rewrite Hrun. eexists. split; [reflexivity|].
      cbn [out_tokens]. cbn [st_tokens List.length] in Hlen. lia. }
  destruct Hreturns as (o & Hrun & Hlen).
  exists o. split; [exact Hrun|]. split; [exact Hlen|].
  apply read_reads_cases in Hrun.
  destruct Hrun as [-> | (H1 & H2 & H3 & [-> | (chunk & Hc & Hsig & -> & _)])].
  - reflexivity.
  - rewrite remaining_exact in H3 by lia.
    unfold reads_inside, in_buffer, offsetof_signature;
      cbn [forallb acc_offset acc_length].
    rewrite andb_true_r. apply andb_true_iff.
    split; apply Z.leb_le; unfold sizeof_evtx_event_record_header_t in *; lia.
  - rewrite remaining_exact in H3 by lia.
    unfold offsetof_signature in Hsig. rewrite Z.add_0_r in Hsig.
    apply header_reads_inside; [exact H1 | lia | exact H3 |].
    apply Hcopy; assumption.
Qed.

Lemma read_terminates_within_rest_of_chunk_witness :
  exists o,
    libevtx_event_values_read (Samples.tokens_of_size 1) 8
      (Some zeroed_event_values) (Some tt)
      (Some Samples.chunk_empty_payload) 32 0 = Some o /\
    Z.of_nat (List.length (out_tokens o))
    <= Z.max 0 (32 - 0 - sizeof_evtx_event_record_header_t) /\
    reads_inside 32 (out_reads o) = true.
Proof.
  apply (read_terminates_within_rest_of_chunk unit (Samples.tokens_of_size 1) 8
           (Some zeroed_event_values) (Some tt)
           (Some Samples.chunk_empty_payload) 32 0).
  - intros chunk Hchunk _ _ _ _. injection Hchunk as <-.
    vm_compute. reflexivity.
  - intros io chunk off tok Hoff Hread. injection Hread as <-.
    change (to_size_t (token_size (mk_token 1))) with 1.
    unfold size_t_modulus. change (2 ^ 64) with 18446744073709551616. lia.
  - lia.
  - vm_compute. discriminate.
Defined.

(** For a record that passes the checks of the header, a failure of the
    token reader at the first token makes the call fail with the IO read
    error on its first iteration: no token is recorded, and the event
    values keep the header fields of the record. *)
Theorem first_token_read_failure_fails_call :
  forall (io_handle_t : Type)
         (token_functions : binary_xml_token_functions io_handle_t)
         (fuel : nat) (ev : libevtx_event_values_t) (io : io_handle_t)
         (chunk : list byte) (chunk_data_size chunk_data_offset : Z),
    chunk_data_size <= SSIZE_MAX ->
    0 <= chunk_data_offset < chunk_data_size ->
    sizeof_evtx_event_record_header_t + 4 <= chunk_data_size - chunk_data_offset ->
    bytes_at chunk chunk_data_offset 4 = evtx_event_record_signature ->
    sizeof_evtx_event_record_header_t
    <= size (header_fields chunk chunk_data_offset)
    <= chunk_data_size - chunk_data_offset - 4 ->
    libevtx_binary_xml_token_initialize token_functions 0%nat = true ->
    libevtx_binary_xml_token_read token_functions io chunk chunk_data_size
      (chunk_data_offset + sizeof_evtx_event_record_header_t) = None ->
    libevtx_event_values_read token_functions (S fuel) (Some ev) (Some io)
      (Some chunk) chunk_data_size chunk_data_offset
    = Some (mk_outcome (Failure E_token_read)
              (Some (header_fields chunk chunk_data_offset)) (Some chunk)
              (header_reads chunk_data_offset
                 (size (header_fields chunk chunk_data_offset))) []) /\
    kind_of E_token_read = TokenDecodeFailed.
Proof.
  intros io_handle_t tf fuel ev io chunk csize coff H1 H2 H3 H4 H5 Hinit Hread.
  split; [|reflexivity].
  rewrite read_non_null.
  rewrite read_record_accepted.
  - rewrite (payload_offset_exact csize) by assumption.
    rewrite read_tokens_step
      by (unfold sizeof_evtx_event_record_header_t in *; lia).
    rewrite Hinit. cbn [negb st_chunk_data]. rewrite Hread. reflexivity.
  - exact H1.
  - lia.
  - rewrite remaining_exact by assumption. exact H3.
  - unfold offsetof_signature. rewrite Z.add_0_r. exact H4.
  - rewrite remaining_exact by assumption. exact H5.
Qed.

Lemma first_token_read_failure_fails_call_witness :
  libevtx_event_values_read Samples.no_token 1 (Some zeroed_event_values)
    (Some tt) (Some Samples.chunk_payload_4) 36 0
  = Some (mk_outcome (Failure E_token_read)
            (Some (header_fields Samples.chunk_payload_4 0))
            (Some Samples.chunk_payload_4)
            (header_reads 0 (size (header_fields Samples.chunk_payload_4 0)))
            []) /\
  kind_of E_token_read = TokenDecodeFailed.
Proof.
  apply (first_token_read_failure_fails_call unit Samples.no_token 0
           zeroed_event_values tt Samples.chunk_payload_4 36 0).
  - vm_compute. discriminate.
  - lia.
  - vm_compute. discriminate.
  - vm_compute. reflexivity.
  - vm_compute. split; discriminate.
  - reflexivity.
  - reflexivity.
Defined.
